(** * C-Mon: a shallow embedding of [C-Mon.cpp] and its verified properties

    The development follows the source file top to bottom: machine
    integers and IEEE doubles, the two statistics structs, the stream
    extraction used by the two [/proc] readers, the CPU usage tracker,
    the disk query, the monitoring loop and [main]. *)

From Stdlib Require Import ZArith Lia Bool List Ascii String.
From Stdlib Require Import Floats.SpecFloat.
From Stdlib Require Import Decimal DecimalString DecimalPos DecimalN.
From stdpp Require Import base strings gmap list.

Local Open Scope Z_scope.

(* ===================================================================== *)
(** ** Machine integers *)

(** [long] on the LP64 targets the program is built for: 64 bits, two's
    complement.  Arithmetic is written with its wrap-around. *)
Module Long.
Definition MIN : Z := - 2 ^ 63.
Definition MAX : Z := 2 ^ 63 - 1.

Definition wrap (z : Z) : Z := (z + 2 ^ 63) mod 2 ^ 64 - 2 ^ 63.

Definition add (a b : Z) : Z := wrap (a + b).
Definition sub (a b : Z) : Z := wrap (a - b).

Definition in_range (z : Z) : Prop := MIN <= z <= MAX.
End Long.

(** [int]: 32 bits, two's complement. *)
Module Int.
Definition MIN : Z := - 2 ^ 31.
Definition MAX : Z := 2 ^ 31 - 1.

Definition wrap (z : Z) : Z := (z + 2 ^ 31) mod 2 ^ 32 - 2 ^ 31.

Definition add (a b : Z) : Z := wrap (a + b).

Definition in_range (z : Z) : Prop := MIN <= z <= MAX.
End Int.

(* ===================================================================== *)
(** ** IEEE 754 binary64 *)

(** [double] is the binary64 format: 53 bits of precision, exponents up
    to 1024, every operation rounded to nearest, ties to even. *)
Module Double.
Definition prec : Z := 53.
Definition emax : Z := 1024.

Definition t : Type := spec_float.

(** [static_cast<double>] of an integer, and the implicit conversion
    of an integer operand of a [double] operation. *)
Definition of_Z (z : Z) : t := binary_normalize prec emax z 0 false.

Definition mul (x y : t) : t := SFmul prec emax x y.
Definition div (x y : t) : t := SFdiv prec emax x y.
Definition sub (x y : t) : t := SFsub prec emax x y.

(** [x < y] and [x <= y]; both are false as soon as one side is NaN. *)
Definition ltb (x y : t) : bool := SFltb x y.
Definition leb (x y : t) : bool := SFleb x y.

(** The literals of the program. *)
Definition zero : t := S754_zero false.
Definition one : t := Eval vm_compute in of_Z 1.
Definition hundred : t := Eval vm_compute in of_Z 100.
Definition ten : t := Eval vm_compute in of_Z 10.

Definition is_nan (x : t) : bool :=
  match x with S754_nan => true | _ => false end.
End Double.

Declare Scope double_scope.
Delimit Scope double_scope with D.
Infix "*" := Double.mul : double_scope.
Infix "/" := Double.div : double_scope.
Infix "-" := Double.sub : double_scope.

(* ===================================================================== *)
(** ** The statistics structs *)

Module CPUStats.
Record t : Type := mk {
  user : Z;
  nice : Z;
  system : Z;
  idle : Z;
  iowait : Z;
  irq : Z;
  softirq : Z;
  steal : Z
}.

(** [user + nice + system + idle + iowait + irq + softirq + steal],
    seven left-associated [long] additions. *)
Definition total (s : t) : Z :=
  Long.add (Long.add (Long.add (Long.add (Long.add (Long.add (Long.add
    (user s) (nice s)) (system s)) (idle s)) (iowait s)) (irq s))
    (softirq s)) (steal s).

(** [user + nice + system + irq + softirq + steal]. *)
Definition active (s : t) : Z :=
  Long.add (Long.add (Long.add (Long.add (Long.add
    (user s) (nice s)) (system s)) (irq s)) (softirq s)) (steal s).

(** The brace initialiser [{0, 0, 0, 0, 0, 0, 0, 0}]. *)
Definition zeroed : t := mk 0 0 0 0 0 0 0 0.

(** A reading as the kernel produces it: every counter non-negative,
    and the eight of them summing to a value a [long] holds, so that no
    signed addition of [total] or [active] overflows. *)
Definition well_formed (s : t) : Prop :=
  0 <= user s /\ 0 <= nice s /\ 0 <= system s /\ 0 <= idle s /\
  0 <= iowait s /\ 0 <= irq s /\ 0 <= softirq s /\ 0 <= steal s /\
  user s + nice s + system s + idle s + iowait s + irq s + softirq s
    + steal s <= Long.MAX.
End CPUStats.

Module MemoryStats.
Record t : Type := mk {
  total : Z;
  free : Z;
  available : Z;
  buffers : Z;
  cached : Z
}.

(** [100.0 * (1.0 - static_cast<double>(available) / total)]; the
    [long] divisor is converted to [double] before the division. *)
Definition used_percent (s : t) : Double.t :=
  (Double.hundred *
    (Double.one - Double.of_Z (available s) / Double.of_Z (total s)))%D.

(** The brace initialiser [{0, 0, 0, 0, 0}]. *)
Definition zeroed : t := mk 0 0 0 0 0.
End MemoryStats.

(* ===================================================================== *)
(** ** Exceptions *)

(** The exception classes the program can meet, each with its [what()]
    text, and the outcome of a call that may throw. *)
Inductive exception : Type :=
  | filesystem_error (what : string)
  | invalid_argument (what : string)
  | out_of_range (what : string).

Definition what (e : exception) : string :=
  match e with
  | filesystem_error s | invalid_argument s | out_of_range s => s
  end.

Inductive except (A : Type) : Type :=
  | Return (a : A)
  | Raise (e : exception).
Arguments Return {A} a.
Arguments Raise {A} e.

Definition bind {A B : Type} (c : except A) (k : A -> except B) : except B :=
  match c with
  | Return a => k a
  | Raise e => Raise e
  end.

Notation "x <- c ;; k" := (bind c (fun x => k))
  (at level 100, c at next level, right associativity, only parsing).

(* ===================================================================== *)
(** ** Input streams *)

(** What [std::ifstream] and [std::istringstream] need here: the
    characters not yet consumed and the fail bit.  No stream of the
    program changes the exception mask, so a failed operation sets the
    bit and returns; it never throws. *)
Module IStream.
Record t : Type := mk { buf : string; failbit : bool }.

Definition failed : t := mk "" true.

(** [std::istringstream iss(line)]. *)
Definition of_string (s : string) : t := mk s false.

(** [std::ifstream f(path)]: [None] stands for a file that cannot be
    opened, which leaves the stream with its fail bit set. *)
Definition open (content : option string) : t :=
  match content with
  | Some s => mk s false
  | None => failed
  end.

(** [std::isspace] in the C locale. *)
Definition isspace (c : ascii) : bool :=
  let n := N_of_ascii c in
  (n =? 32)%N || ((9 <=? n)%N && (n <=? 13)%N).

Definition digit_of (c : ascii) : option Z :=
  let n := Z.of_N (N_of_ascii c) in
  if (48 <=? n) && (n <=? 57) then Some (n - 48) else None.

Definition is_newline (c : ascii) : bool := (N_of_ascii c =? 10)%N.

Fixpoint skipws (s : string) : string :=
  match s with
  | String c r => if isspace c then skipws r else s
  | EmptyString => s
  end.

(** The longest prefix without white space, and what follows it. *)
Fixpoint take_word (s : string) : string * string :=
  match s with
  | String c r =>
      if isspace c then (EmptyString, s)
      else let '(w, k) := take_word r in (String c w, k)
  | EmptyString => (EmptyString, EmptyString)
  end.

(** The decimal digits at the front of [s], accumulated onto [acc]:
    the value, whether a digit was seen, and what follows. *)
Fixpoint scan_digits (s : string) (acc : Z) (seen : bool)
  : Z * bool * string :=
  match s with
  | String c r =>
      match digit_of c with
      | Some d => scan_digits r (10 * acc + d) true
      | None => (acc, seen, s)
      end
  | EmptyString => (acc, seen, s)
  end.

(** An optional sign followed by decimal digits, as [num_get] and
    [strtol] read them in base 10: [None] when there is no digit. *)
Definition scan_integer (s : string) : option Z * string :=
  let '(neg, body) :=
    match s with
    | String "-" r => (true, r)
    | String "+" r => (false, r)
    | _ => (false, s)
    end in
  let '(n, seen, rest) := scan_digits body 0 false in
  if seen then (Some (if neg then - n else n), rest) else (None, rest).

(** [is >> str].  The sentry skips white space and fails at the end of
    the input, leaving the target untouched ([None]). *)
Definition extract_string (inp : t) : t * option string :=
  if failbit inp then (inp, None)
  else
    match skipws (buf inp) with
    | EmptyString => (failed, None)
    | String _ _ as b => let '(w, k) := take_word b in (mk k false, Some w)
    end.

(** [is >> n] for a [long].  When the sentry fails the target is left
    untouched ([None]); when no number can be read the target becomes 0,
    and when the number does not fit it becomes the nearest bound, both
    with the fail bit set. *)
Definition extract_long (inp : t) : t * option Z :=
  if failbit inp then (inp, None)
  else
    match skipws (buf inp) with
    | EmptyString => (failed, None)
    | String _ _ as b =>
        match scan_integer b with
        | (None, _) => (failed, Some 0)
        | (Some v, rest) =>
            if Long.MAX <? v then (failed, Some Long.MAX)
            else if v <? Long.MIN then (failed, Some Long.MIN)
            else (mk rest false, Some v)
        end
    end.

(** The two extractions as assignments to a variable holding [old]. *)
Definition read_string (inp : t) (old : string) : t * string :=
  let '(inp', r) := extract_string inp in (inp', default old r).

Definition read_long (inp : t) (old : Z) : t * Z :=
  let '(inp', r) := extract_long inp in (inp', default old r).

(** The characters up to the first newline, and what follows it. *)
Fixpoint cut_line (s : string) : string * string :=
  match s with
  | String c r =>
      if is_newline c then (EmptyString, r)
      else let '(l, k) := cut_line r in (String c l, k)
  | EmptyString => (EmptyString, EmptyString)
  end.

(** [std::getline(is, line)]: fails when the stream has failed or no
    character is left; the newline is consumed and not stored. *)
Definition getline (inp : t) : t * option string :=
  if failbit inp then (inp, None)
  else
    match buf inp with
    | EmptyString => (failed, None)
    | String _ _ as b => let '(l, k) := cut_line b in (mk k false, Some l)
    end.

(** The lines that successive calls of [getline] deliver until one
    fails, [cur] being the part of the current line already read. *)
Fixpoint lines_from (cur : string) (s : string) : list string :=
  match s with
  | String c r =>
      if is_newline c then cur :: lines_from EmptyString r
      else lines_from (cur ++ String c EmptyString)%string r
  | EmptyString =>
      match cur with EmptyString => [] | _ => [cur] end
  end.

Definition getlines (inp : t) : list string :=
  if failbit inp then [] else lines_from EmptyString (buf inp).
End IStream.

(* ===================================================================== *)
(** ** The two [/proc] readers *)

(** [get_cpu_stats]: the first line of [/proc/stat], a label and up to
    eight numbers.  [proc_stat] is the content of the file, [None] when
    it cannot be opened. *)
Definition get_cpu_stats (proc_stat : option string) : CPUStats.t :=
  let stats := CPUStats.zeroed in
  match IStream.getline (IStream.open proc_stat) with
  | (_, Some line) =>
      let iss := IStream.of_string line in
      let '(iss, cpu_label) := IStream.read_string iss EmptyString in
      let '(iss, user) := IStream.read_long iss (CPUStats.user stats) in
      let '(iss, nice) := IStream.read_long iss (CPUStats.nice stats) in
      let '(iss, system) := IStream.read_long iss (CPUStats.system stats) in
      let '(iss, idle) := IStream.read_long iss (CPUStats.idle stats) in
      let '(iss, iowait) := IStream.read_long iss (CPUStats.iowait stats) in
      let '(iss, irq) := IStream.read_long iss (CPUStats.irq stats) in
      let '(iss, softirq) := IStream.read_long iss (CPUStats.softirq stats) in
      let '(iss, steal) := IStream.read_long iss (CPUStats.steal stats) in
      CPUStats.mk user nice system idle iowait irq softirq steal
  | (_, None) => stats
  end.

(** The body of the loop of [get_memory_stats] for one line.  The local
    [value] is declared without an initialiser: [indeterminate] is what
    it holds when the extraction does not assign it. *)
Definition memory_line (indeterminate : Z) (stats : MemoryStats.t)
    (line : string) : MemoryStats.t :=
  let iss := IStream.of_string line in
  let '(iss, key) := IStream.read_string iss EmptyString in
  let '(iss, value) := IStream.read_long iss indeterminate in
  let '(iss, unit) := IStream.read_string iss EmptyString in
  let 'MemoryStats.mk total free available buffers cached := stats in
  if String.eqb key "MemTotal:" then
    MemoryStats.mk value free available buffers cached
  else if String.eqb key "MemFree:" then
    MemoryStats.mk total value available buffers cached
  else if String.eqb key "MemAvailable:" then
    MemoryStats.mk total free value buffers cached
  else if String.eqb key "Buffers:" then
    MemoryStats.mk total free available value cached
  else if String.eqb key "Cached:" then
    MemoryStats.mk total free available buffers value
  else stats.

(** [get_memory_stats]: every line of [/proc/meminfo] in turn. *)
Definition get_memory_stats (indeterminate : Z) (proc_meminfo : option string)
    : MemoryStats.t :=
  fold_left (memory_line indeterminate)
    (IStream.getlines (IStream.open proc_meminfo)) MemoryStats.zeroed.

(* ===================================================================== *)
(** ** The monitor object and the CPU usage tracker *)

(** The data members of [SystemMonitor]. *)
Record SystemMonitor : Type := mkSystemMonitor {
  prev_cpu_stats : CPUStats.t;
  first_cpu_reading : bool;
  log_file : string;
  log_to_file : bool
}.

(** [get_cpu_usage] from its second line on, [current] being the reading
    just taken: the usage it returns and the object it leaves. *)
Definition cpu_usage_from (current : CPUStats.t) (m : SystemMonitor)
    : Double.t * SystemMonitor :=
  let cpu_usage := Double.zero in
  let '(cpu_usage, first) :=
    if negb (first_cpu_reading m) then
      let prev_total := CPUStats.total (prev_cpu_stats m) in
      let current_total := CPUStats.total current in
      let total_delta := Long.sub current_total prev_total in
      let prev_active := CPUStats.active (prev_cpu_stats m) in
      let current_active := CPUStats.active current in
      let active_delta := Long.sub current_active prev_active in
      if 0 <? total_delta then
        ((Double.hundred *
           (Double.of_Z active_delta / Double.of_Z total_delta))%D,
         first_cpu_reading m)
      else (cpu_usage, first_cpu_reading m)
    else (cpu_usage, false) in
  (cpu_usage, mkSystemMonitor current first (log_file m) (log_to_file m)).

Definition get_cpu_usage (proc_stat : option string) (m : SystemMonitor)
    : Double.t * SystemMonitor :=
  cpu_usage_from (get_cpu_stats proc_stat) m.

(* ===================================================================== *)
(** ** The world the program runs in *)

(** [fs::space_info], three [uintmax_t] byte counts. *)
Module Space.
Record info : Type := mk { capacity : Z; free : Z; available : Z }.
End Space.

(** One line of the console: free text, or the line of a sample (the
    three percentages are printed with one decimal). *)
Inductive console_line : Type :=
  | Text (s : string)
  | Sample (timestamp : string) (cpu memory disk : Double.t).

(** One line of a file: free text, or the comma-separated row of a
    sample. *)
Inductive file_line : Type :=
  | Raw (s : string)
  | Row (timestamp : string) (cpu memory disk : Double.t).

(** What the program has done so far: the lines written to the two
    standard streams, the content of the files, the pauses taken and the
    number of samples taken. *)
Record world : Type := mkWorld {
  stdout : list console_line;
  stderr : list string;
  files : gmap string (list file_line);
  sleeps : list Z;
  elapsed : nat
}.

(** What the system shows when a sample is taken: the content of the two
    pseudo-files ([None]: cannot be opened), the value an unassigned local
    holds, the answer of the filesystem to a space query (a message when
    it fails) and the local time already formatted. *)
Record sources : Type := mkSources {
  proc_stat : option string;
  proc_meminfo : option string;
  indeterminate : Z;
  disk : string -> string + Space.info;
  localtime : string
}.

(** The surroundings of a run: the sources at each sample, and the paths
    that can be opened for writing. *)
Record environment : Type := mkEnvironment {
  sources_at : nat -> sources;
  writable : string -> bool
}.

Definition print_out (l : console_line) (w : world) : world :=
  mkWorld (stdout w ++ [l]) (stderr w) (files w) (sleeps w) (elapsed w).

Definition print_err (s : string) (w : world) : world :=
  mkWorld (stdout w) (stderr w ++ [s]) (files w) (sleeps w) (elapsed w).

Definition sleep_for (seconds : Z) (w : world) : world :=
  mkWorld (stdout w) (stderr w) (files w) (sleeps w ++ [seconds]) (elapsed w).

Definition sampled (w : world) : world :=
  mkWorld (stdout w) (stderr w) (files w) (sleeps w) (S (elapsed w)).

(** [std::ofstream ofs(path, out | trunc); ofs << line;] and the same with
    [app].  When the file cannot be opened the insertion does nothing. *)
Definition write_trunc (env : environment) (path : string) (l : file_line)
    (w : world) : world :=
  if writable env path then
    mkWorld (stdout w) (stderr w) (<[path := [l]]> (files w)) (sleeps w)
      (elapsed w)
  else w.

Definition write_app (env : environment) (path : string) (l : file_line)
    (w : world) : world :=
  if writable env path then
    mkWorld (stdout w) (stderr w)
      (<[path := default [] (files w !! path) ++ [l]]> (files w)) (sleeps w)
      (elapsed w)
  else w.

Definition csv_header : file_line :=
  Raw "Timestamp,CPU Usage (%),Memory Usage (%),Disk Usage (%)".

(** The constructor.  [prev_cpu_stats] has no initialiser: [junk] is what
    it holds until the first assignment. *)
Definition SystemMonitor_new (junk : CPUStats.t) (env : environment)
    (log_file : string) (w : world) : SystemMonitor * world :=
  if negb (String.eqb log_file EmptyString) then
    (mkSystemMonitor junk true log_file true,
     write_trunc env log_file csv_header w)
  else (mkSystemMonitor junk true log_file false, w).

(* ===================================================================== *)
(** ** The disk query *)

(** [fs::space(path)], which throws [filesystem_error] when the query
    fails. *)
Definition fs_space (src : sources) (path : string) : except Space.info :=
  match disk src path with
  | inl msg => Raise (filesystem_error msg)
  | inr info => Return info
  end.

(** [get_disk_usage]: the handler catches [filesystem_error] only. *)
Definition get_disk_usage (src : sources) (path : string) (w : world)
    : except Double.t * world :=
  match fs_space src path with
  | Return space =>
      let total := Double.of_Z (Space.capacity space) in
      let free := Double.of_Z (Space.free space) in
      if Double.ltb Double.zero total then
        (Return (Double.hundred * (Double.one - free / total))%D, w)
      else (Return Double.zero, w)
  | Raise (filesystem_error msg) =>
      (Return Double.zero,
       print_err ("Error getting disk space: " ++ msg)%string w)
  | Raise e => (Raise e, w)
  end.

(** [get_timestamp]. *)
Definition get_timestamp (src : sources) : string := localtime src.

(* ===================================================================== *)
(** ** The monitoring loop *)

(** The statements of the loop body up to and including the write to the
    log: one sample.  An exception leaves the body at the disk query,
    before anything is written. *)
Definition tick (env : environment) (m : SystemMonitor) (w : world)
    : except SystemMonitor * world :=
  let src := sources_at env (elapsed w) in
  let '(cpu_usage, m) := get_cpu_usage (proc_stat src) m in
  let mem_stats := get_memory_stats (indeterminate src) (proc_meminfo src) in
  match get_disk_usage src "/" w with
  | (Raise e, w) => (Raise e, w)
  | (Return disk_usage, w) =>
      let timestamp := get_timestamp src in
      let w :=
        print_out (Sample timestamp cpu_usage
                     (MemoryStats.used_percent mem_stats) disk_usage) w in
      let w :=
        if log_to_file m then
          write_app env (log_file m)
            (Row timestamp cpu_usage (MemoryStats.used_percent mem_stats)
               disk_usage) w
        else w in
      (Return m, sampled w)
  end.

(** The condition [count == -1 || iterations < count]. *)
Definition continue (count iterations : Z) : bool :=
  (count =? -1) || (iterations <? count).

(** How far a computation that may loop has come when the fuel given to
    it is spent: it has returned, it has thrown, or it is still going. *)
Inductive run (A : Type) : Type :=
  | Finished (a : A)
  | Threw (e : exception)
  | Unfinished.
Arguments Finished {A} a.
Arguments Threw {A} e.
Arguments Unfinished {A}.

(** [while (count == -1 || iterations < count) { ... }].  Each turn of the
    loop uses one unit of [fuel]; the world is the one reached so far. *)
Fixpoint monitor_loop (fuel : nat) (env : environment)
    (interval_seconds count iterations : Z) (m : SystemMonitor) (w : world)
    : run SystemMonitor * world :=
  if continue count iterations then
    match fuel with
    | O => (Unfinished, w)
    | S fuel' =>
        match tick env m w with
        | (Raise e, w) => (Threw e, w)
        | (Return m, w) =>
            let iterations := Int.add iterations 1 in
            let w :=
              if continue count iterations then sleep_for interval_seconds w
              else w in
            monitor_loop fuel' env interval_seconds count iterations m w
        end
    end
  else (Finished m, w).

Definition monitor (fuel : nat) (env : environment)
    (interval_seconds count : Z) (m : SystemMonitor) (w : world)
    : run SystemMonitor * world :=
  monitor_loop fuel env interval_seconds count 0 m w.

(* ===================================================================== *)
(** ** The command line and [main] *)

Definition help_text : list console_line :=
  [ Text "Usage: system_monitor [OPTIONS]";
    Text "Options:";
    Text "  -h, --help         Show this help message";
    Text "  -i, --interval N   Set monitoring interval in seconds (default: 1)";
    Text "  -c, --count N      Run for N iterations (default: infinite)";
    Text "  -l, --log FILE     Log results to CSV file" ].

Definition print_help (w : world) : world :=
  mkWorld (stdout w ++ help_text) (stderr w) (files w) (sleeps w) (elapsed w).

(** [std::stoi]: white space, an optional sign and decimal digits;
    whatever follows is ignored.  Throws [invalid_argument] when there is
    no digit and [out_of_range] when the value does not fit an [int]. *)
Definition stoi (s : string) : except Z :=
  match IStream.scan_integer (IStream.skipws s) with
  | (None, _) => Raise (invalid_argument "stoi")
  | (Some v, _) =>
      if (v <? Int.MIN) || (Int.MAX <? v) then Raise (out_of_range "stoi")
      else Return v
  end.

(** The three locals that the argument loop of [main] sets. *)
Record options : Type := mkOptions {
  opt_interval : Z;
  opt_count : Z;
  opt_log_file : string
}.

Definition default_options : options := mkOptions 1 (-1) EmptyString.

Definition is_flag (arg short long : string) : bool :=
  String.eqb arg short || String.eqb arg long.

(** The argument loop, [args] being [argv[i]], [argv[i+1]], ...  The
    result is [None] when the loop leaves [main] through the help branch.
    An option given last, without its value, is skipped. *)
Fixpoint parse_args (args : list string) (o : options)
    : except (option options) :=
  match args with
  | [] => Return (Some o)
  | arg :: rest =>
      if is_flag arg "-h" "--help" then Return None
      else if is_flag arg "-i" "--interval" then
        match rest with
        | v :: rest' =>
            n <- stoi v ;;
            parse_args rest' (mkOptions n (opt_count o) (opt_log_file o))
        | [] => parse_args rest o
        end
      else if is_flag arg "-c" "--count" then
        match rest with
        | v :: rest' =>
            n <- stoi v ;;
            parse_args rest' (mkOptions (opt_interval o) n (opt_log_file o))
        | [] => parse_args rest o
        end
      else if is_flag arg "-l" "--log" then
        match rest with
        | v :: rest' =>
            parse_args rest' (mkOptions (opt_interval o) (opt_count o) v)
        | [] => parse_args rest o
        end
      else parse_args rest o
  end.

(** The [try] block of [main]: build the monitor, run the loop. *)
Definition session (fuel : nat) (junk : CPUStats.t) (env : environment)
    (o : options) (w : world) : run SystemMonitor * world :=
  let '(m, w) := SystemMonitor_new junk env (opt_log_file o) w in
  monitor fuel env (opt_interval o) (opt_count o) m w.

(** How a run of the process ends: it returns from [main] with an exit
    code, or an exception leaves [main] and [std::terminate] aborts the
    process (no exit code is returned), or it is still running. *)
Inductive outcome : Type :=
  | Exited (code : Z)
  | Terminated (e : exception)
  | Running.

(** [main], [argv] holding the program name first.  The calls of
    [std::stoi] are made by the argument loop, before the [try] block. *)
Definition main (fuel : nat) (junk : CPUStats.t) (env : environment)
    (argv : list string) (w : world) : outcome * world :=
  match parse_args (tl argv) default_options with
  | Raise e => (Terminated e, w)
  | Return None => (Exited 0, print_help w)
  | Return (Some o) =>
      match session fuel junk env o w with
      | (Unfinished, w) => (Running, w)
      | (Finished _, w) => (Exited 0, w)
      | (Threw e, w) => (Exited 1, print_err ("Error: " ++ what e)%string w)
      end
  end.

Definition empty_world : world := mkWorld [] [] ∅ [] 0.

(* ===================================================================== *)
(** ** Vocabulary of the properties *)

(** The derived counters, as the data model words them. *)
Module CounterSpec.
Import CPUStats.

(** The sum of all eight counters. *)
Definition total (s : CPUStats.t) : Z :=
  user s + nice s + system s + idle s + iowait s + irq s + softirq s
    + steal s.

(** The total minus idle minus iowait. *)
Definition active (s : CPUStats.t) : Z := total s - idle s - iowait s.
End CounterSpec.

(** What [get_disk_usage] returns and what it reports, as two functions
    of the sources. *)
Definition disk_percent (src : sources) (path : string) : Double.t :=
  match disk src path with
  | inr space =>
      if Double.ltb Double.zero (Double.of_Z (Space.capacity space)) then
        (Double.hundred *
          (Double.one - Double.of_Z (Space.free space)
                        / Double.of_Z (Space.capacity space)))%D
      else Double.zero
  | inl _ => Double.zero
  end.

Definition disk_report (src : sources) (path : string) (w : world) : world :=
  match disk src path with
  | inr _ => w
  | inl msg => print_err ("Error getting disk space: " ++ msg)%string w
  end.

(** The console line and the log row of the sample that monitor [m]
    takes in world [w], and the world after that sample. *)
Definition sample_line (env : environment) (m : SystemMonitor) (w : world)
    : console_line :=
  let src := sources_at env (elapsed w) in
  Sample (get_timestamp src) (fst (get_cpu_usage (proc_stat src) m))
    (MemoryStats.used_percent
       (get_memory_stats (indeterminate src) (proc_meminfo src)))
    (disk_percent src "/").

Definition sample_row (env : environment) (m : SystemMonitor) (w : world)
    : file_line :=
  let src := sources_at env (elapsed w) in
  Row (get_timestamp src) (fst (get_cpu_usage (proc_stat src) m))
    (MemoryStats.used_percent
       (get_memory_stats (indeterminate src) (proc_meminfo src)))
    (disk_percent src "/").

Definition after_sample (env : environment) (m : SystemMonitor) (w : world)
    : world :=
  let src := sources_at env (elapsed w) in
  let w1 := print_out (sample_line env m w) (disk_report src "/" w) in
  sampled (if log_to_file m
           then write_app env (log_file m) (sample_row env m w) w1
           else w1).

(** The lines that samples produce, as opposed to free text. *)
Definition is_sample (l : console_line) : bool :=
  match l with Sample _ _ _ _ => true | Text _ => false end.

Definition is_row (l : file_line) : bool :=
  match l with Row _ _ _ _ => true | Raw _ => false end.

(** The pause at the end of a turn of the loop. *)
Definition paused (c : bool) (seconds : Z) (w : world) : world :=
  if c then sleep_for seconds w else w.

(** *** Concrete inputs *)

(** A monitor just built, without a log. *)
Definition fresh_monitor : SystemMonitor :=
  mkSystemMonitor CPUStats.zeroed true EmptyString false.

(** The two readings of the worked example. *)
Definition example_R1 : CPUStats.t := CPUStats.mk 100 0 0 900 0 0 0 0.
Definition example_R2 : CPUStats.t := CPUStats.mk 200 0 0 1800 0 0 0 0.

(** A system whose CPU line alternates between these two readings, with
    a quarter of the memory available and half of the disk free. *)
Definition example_sources (k : nat) : sources :=
  mkSources
    (Some (if Nat.even k then "cpu  100 0 0 900 0 0 0 0"
           else "cpu  200 0 0 1800 0 0 0 0"))
    (Some "MemTotal: 16000000 kB
MemFree: 1000000 kB
MemAvailable: 4000000 kB")
    0
    (fun path =>
       if String.eqb path "/" then inr (Space.mk 1000 500 400)
       else inl "No such file or directory")
    "2024-01-01 00:00:00".

Definition example_env : environment :=
  mkEnvironment example_sources (fun _ => true).

(** A system on which neither pseudo-file can be opened. *)
Definition unreadable_sources : sources :=
  mkSources None None 0 (fun _ => inr (Space.mk 1000 500 500))
    "2024-01-01 00:00:00".

Definition unreadable_env : environment :=
  mkEnvironment (fun _ => unreadable_sources) (fun _ => true).

(** The same system as [example_env] with no filesystem to query. *)
Definition diskless_sources (k : nat) : sources :=
  mkSources (proc_stat (example_sources k)) (proc_meminfo (example_sources k))
    0 (fun _ => inl "No such file or directory") "2024-01-01 00:00:00".

Definition diskless_env : environment :=
  mkEnvironment diskless_sources (fun _ => true).

(* ===================================================================== *)
(** ** Vocabulary of the further properties *)

(** *** The trace of a run *)

(** The reading that [get_cpu_stats] takes at sample [k]. *)
Definition reading_at (env : environment) (k : nat) : CPUStats.t :=
  get_cpu_stats (proc_stat (sources_at env k)).

(** The answer of [get_cpu_usage] to [current] when the baseline is
    [prev]. *)
Definition usage_between (prev current : CPUStats.t) : Double.t :=
  fst (cpu_usage_from current (mkSystemMonitor prev false EmptyString false)).

(** The line of sample number [k] of a loop entered by monitor [m] when
    [t0] samples had been taken: the first usage is the answer of [m], each
    later one is the usage between two consecutive readings. *)
Definition loop_line (env : environment) (m : SystemMonitor) (t0 k : nat)
    : console_line :=
  let src := sources_at env (t0 + k) in
  Sample (get_timestamp src)
    (match k with
     | O => fst (get_cpu_usage (proc_stat src) m)
     | S j => usage_between (reading_at env (t0 + j)) (reading_at env (t0 + k))
     end)
    (MemoryStats.used_percent
       (get_memory_stats (indeterminate src) (proc_meminfo src)))
    (disk_percent src "/").

(** The row of the log that goes with a console line. *)
Definition row_of_line (l : console_line) : file_line :=
  match l with
  | Sample t c m d => Row t c m d
  | Text s => Raw s
  end.

(** What a sample writes to the error stream. *)
Definition disk_complaint (src : sources) : list string :=
  match disk src "/" with
  | inl msg => [("Error getting disk space: " ++ msg)%string]
  | inr _ => []
  end.

(** The line of sample number [k] of a session that starts when [t0]
    samples had been taken: 0.0 for the first CPU usage, then the usage
    between consecutive readings. *)
Definition session_line (env : environment) (t0 k : nat) : console_line :=
  let src := sources_at env (t0 + k) in
  Sample (get_timestamp src)
    (match k with
     | O => Double.zero
     | S j => usage_between (reading_at env (t0 + j)) (reading_at env (t0 + k))
     end)
    (MemoryStats.used_percent
       (get_memory_stats (indeterminate src) (proc_meminfo src)))
    (disk_percent src "/").

(** *** Numbers in decimal notation *)

(** The decimal notation of a natural number, and of an integer with its
    minus sign. *)
Definition decimal (n : N) : string :=
  NilEmpty.string_of_uint (N.to_uint n).

Definition decimal_Z (z : Z) : string :=
  match z with
  | Zneg p => String "-" (decimal (Npos p))
  | _ => decimal (Z.to_N z)
  end.

(** A string that does not go on with a digit: a number ends before it. *)
Definition ends_number (s : string) : bool :=
  match s with
  | EmptyString => true
  | String c _ =>
      match IStream.digit_of c with Some _ => false | None => true end
  end.

(** A string made of white space only. *)
Fixpoint all_space (s : string) : bool :=
  match s with
  | EmptyString => true
  | String c r => IStream.isspace c && all_space r
  end.

(** *** Readings and lines of the pseudo-files *)

(** A reading whose eight counters are values of a [long]. *)
Definition cpu_fits (s : CPUStats.t) : Prop :=
  Long.in_range (CPUStats.user s) /\ Long.in_range (CPUStats.nice s) /\
  Long.in_range (CPUStats.system s) /\ Long.in_range (CPUStats.idle s) /\
  Long.in_range (CPUStats.iowait s) /\ Long.in_range (CPUStats.irq s) /\
  Long.in_range (CPUStats.softirq s) /\ Long.in_range (CPUStats.steal s).

Definition memory_fits (s : MemoryStats.t) : Prop :=
  Long.in_range (MemoryStats.total s) /\ Long.in_range (MemoryStats.free s) /\
  Long.in_range (MemoryStats.available s) /\
  Long.in_range (MemoryStats.buffers s) /\ Long.in_range (MemoryStats.cached s).



(** What separates two fields of a line: spaces and tabs, at least one. *)
Definition is_blank (c : ascii) : bool :=
  (N_of_ascii c =? 32)%N || (N_of_ascii c =? 9)%N.

Fixpoint all_blank (s : string) : bool :=
  match s with
  | EmptyString => true
  | String c r => is_blank c && all_blank r
  end.




Definition newline : ascii := ascii_of_nat 10.

Fixpoint no_newline (s : string) : bool :=
  match s with
  | EmptyString => true
  | String c r => negb (IStream.is_newline c) && no_newline r
  end.

(** The numbers that [k] extractions of a [long] in a row deliver, each
    into a variable holding 0. *)
Fixpoint read_longs (k : nat) (inp : IStream.t) : list Z :=
  match k with
  | O => []
  | S k' =>
      let '(inp', v) := IStream.read_long inp 0 in v :: read_longs k' inp'
  end.








(** *** Kinds of doubles *)

(** A double that is zero or finite. *)
Definition is_real (x : Double.t) : bool :=
  match x with
  | S754_zero _ | S754_finite _ _ _ => true
  | _ => false
  end.

Definition is_zero (x : Double.t) : bool :=
  match x with S754_zero _ => true | _ => false end.

(** *** Lines that are cut short *)



(* ===================================================================== *)
(** * Properties *)

(** ** Machine arithmetic within range *)

Lemma Long_wrap_in_range (z : Z) : Long.in_range z -> Long.wrap z = z.
Proof.
  unfold Long.in_range, Long.wrap, Long.MIN, Long.MAX. intros H.
  rewrite Z.mod_small; lia.
Qed.

Lemma Long_sub_diag (z : Z) : Long.sub z z = 0.
Proof. unfold Long.sub. rewrite Z.sub_diag. reflexivity. Qed.

Lemma Int_wrap_in_range (z : Z) : Int.in_range z -> Int.wrap z = z.
Proof.
  unfold Int.in_range, Int.wrap, Int.MIN, Int.MAX. intros H.
  rewrite Z.mod_small; lia.
Qed.

Lemma Int_succ (i : Z) : 0 <= i < Int.MAX -> Int.add i 1 = i + 1.
Proof.
  intros H. unfold Int.add. apply Int_wrap_in_range.
  unfold Int.in_range, Int.MIN, Int.MAX in *. lia.
Qed.

(** ** Reading a file line by line *)

Lemma string_app_nil_r (s : string) : (s ++ EmptyString)%string = s.
Proof.
  induction s as [| c s IH]; [reflexivity |].
  change (String c (s ++ EmptyString)%string = String c s).
  rewrite IH. reflexivity.
Qed.

Lemma string_app_assoc (a b c : string) :
  ((a ++ b) ++ c)%string = (a ++ (b ++ c))%string.
Proof.
  induction a as [| x a IH]; [reflexivity |].
  change (String x ((a ++ b) ++ c)%string = String x (a ++ (b ++ c))%string).
  rewrite IH. reflexivity.
Qed.

Lemma string_app_nonempty (a : string) (c : ascii) :
  (a ++ String c EmptyString)%string <> EmptyString.
Proof. destruct a; discriminate. Qed.

(** [lines_from] cuts one line at a time. *)
Lemma lines_from_cut (s : string) :
  forall cur : string,
    (cur ++ s)%string <> EmptyString ->
    IStream.lines_from cur s
    = (cur ++ fst (IStream.cut_line s))%string
      :: IStream.lines_from EmptyString (snd (IStream.cut_line s)).
Proof.
  induction s as [| c r IH]; intros cur Hne.
  - rewrite string_app_nil_r in Hne.
    cbn [IStream.lines_from IStream.cut_line fst snd].
    rewrite string_app_nil_r.
    destruct cur; [contradiction | reflexivity].
  - cbn [IStream.lines_from IStream.cut_line].
    destruct (IStream.is_newline c).
    + cbn [fst snd]. rewrite string_app_nil_r. reflexivity.
    + rewrite IH.
      2:{ intros H. apply (string_app_nonempty cur c).
          destruct (cur ++ String c EmptyString)%string; [reflexivity |].
          discriminate H. }
      destruct (IStream.cut_line r) as [l k]. cbn [fst snd].
      rewrite string_app_assoc. reflexivity.
Qed.

(** The list [getlines] is the one that the loop
    [while (std::getline(f, line))] goes through. *)
Lemma getlines_getline (inp : IStream.t) :
  IStream.getlines inp
  = match IStream.getline inp with
    | (inp', Some l) => l :: IStream.getlines inp'
    | (_, None) => []
    end.
Proof.
  destruct inp as [b [|]]; [reflexivity |].
  unfold IStream.getlines, IStream.getline.
  cbn [IStream.failbit IStream.buf].
  destruct b as [| c r]; [reflexivity |].
  rewrite lines_from_cut by discriminate.
  destruct (IStream.cut_line (String c r)) as [l k]. reflexivity.
Qed.

(** ** The derived counters *)

Ltac long_exact :=
  repeat match goal with
         | |- context [Long.wrap ?z] =>
             rewrite (Long_wrap_in_range z)
               by (unfold Long.in_range, Long.MIN, Long.MAX in *; lia)
         end.

Lemma total_exact (s : CPUStats.t) :
  CPUStats.well_formed s -> CPUStats.total s = CounterSpec.total s.
Proof.
  destruct s as [u n sy i io ir so st].
  unfold CPUStats.well_formed, CPUStats.total, CounterSpec.total, Long.add.
  cbn [CPUStats.user CPUStats.nice CPUStats.system CPUStats.idle
       CPUStats.iowait CPUStats.irq CPUStats.softirq CPUStats.steal].
  intros H. long_exact. reflexivity.
Qed.

Lemma active_exact (s : CPUStats.t) :
  CPUStats.well_formed s -> CPUStats.active s = CounterSpec.active s.
Proof.
  destruct s as [u n sy i io ir so st].
  unfold CPUStats.well_formed, CPUStats.active, CounterSpec.active,
    CounterSpec.total, Long.add.
  cbn [CPUStats.user CPUStats.nice CPUStats.system CPUStats.idle
       CPUStats.iowait CPUStats.irq CPUStats.softirq CPUStats.steal].
  intros H. long_exact. lia.
Qed.

Lemma total_bounds (s : CPUStats.t) :
  CPUStats.well_formed s -> 0 <= CounterSpec.total s <= Long.MAX.
Proof.
  destruct s as [u n sy i io ir so st].
  unfold CPUStats.well_formed, CounterSpec.total.
  cbn [CPUStats.user CPUStats.nice CPUStats.system CPUStats.idle
       CPUStats.iowait CPUStats.irq CPUStats.softirq CPUStats.steal]. lia.
Qed.

Lemma active_bounds (s : CPUStats.t) :
  CPUStats.well_formed s -> 0 <= CounterSpec.active s <= Long.MAX.
Proof.
  destruct s as [u n sy i io ir so st].
  unfold CPUStats.well_formed, CounterSpec.active, CounterSpec.total.
  cbn [CPUStats.user CPUStats.nice CPUStats.system CPUStats.idle
       CPUStats.iowait CPUStats.irq CPUStats.softirq CPUStats.steal]. lia.
Qed.

Lemma total_delta_exact (r1 r2 : CPUStats.t) :
  CPUStats.well_formed r1 -> CPUStats.well_formed r2 ->
  Long.sub (CPUStats.total r2) (CPUStats.total r1)
  = CounterSpec.total r2 - CounterSpec.total r1.
Proof.
  intros H1 H2. rewrite !total_exact by assumption.
  apply total_bounds in H1, H2. unfold Long.sub. long_exact. reflexivity.
Qed.

Lemma active_delta_exact (r1 r2 : CPUStats.t) :
  CPUStats.well_formed r1 -> CPUStats.well_formed r2 ->
  Long.sub (CPUStats.active r2) (CPUStats.active r1)
  = CounterSpec.active r2 - CounterSpec.active r1.
Proof.
  intros H1 H2. rewrite !active_exact by assumption.
  apply active_bounds in H1, H2. unfold Long.sub. long_exact. reflexivity.
Qed.

(** ** The CPU usage tracker *)

(** The two paths of [get_cpu_usage], one equation each. *)
Lemma cpu_usage_cold (current junk : CPUStats.t) (f : string) (l : bool) :
  cpu_usage_from current (mkSystemMonitor junk true f l)
  = (Double.zero, mkSystemMonitor current false f l).
Proof. reflexivity. Qed.

Lemma cpu_usage_warm (current prev : CPUStats.t) (f : string) (l : bool) :
  cpu_usage_from current (mkSystemMonitor prev false f l)
  = (if 0 <? Long.sub (CPUStats.total current) (CPUStats.total prev)
     then (Double.hundred *
            (Double.of_Z
               (Long.sub (CPUStats.active current) (CPUStats.active prev))
             / Double.of_Z
                 (Long.sub (CPUStats.total current) (CPUStats.total prev))))%D
     else Double.zero,
     mkSystemMonitor current false f l).
Proof.
  unfold cpu_usage_from. cbn [first_cpu_reading negb prev_cpu_stats].
  destruct (0 <? _); reflexivity.
Qed.

(** The object that a call leaves, whichever path it takes. *)
Lemma cpu_usage_from_state (current : CPUStats.t) (m : SystemMonitor) :
  snd (cpu_usage_from current m)
  = mkSystemMonitor current false (log_file m) (log_to_file m).
Proof.
  destruct m as [prev [|] f l].
  - rewrite cpu_usage_cold. reflexivity.
  - rewrite cpu_usage_warm. reflexivity.
Qed.

(** The baseline is what [get_cpu_stats] delivered. *)
Lemma get_cpu_usage_baseline (src : option string) (m : SystemMonitor) :
  prev_cpu_stats (snd (get_cpu_usage src m)) = get_cpu_stats src.
Proof. unfold get_cpu_usage. rewrite cpu_usage_from_state. reflexivity. Qed.

Lemma get_cpu_usage_log (src : option string) (m : SystemMonitor) :
  log_file (snd (get_cpu_usage src m)) = log_file m /\
  log_to_file (snd (get_cpu_usage src m)) = log_to_file m.
Proof.
  unfold get_cpu_usage. rewrite cpu_usage_from_state. split; reflexivity.
Qed.

(** A regression of the raw [long] totals is answered by 0.0 as soon as
    the new total is not negative. *)
Lemma regression_of_long_totals (R1 R2 : CPUStats.t) (f : string) (l : bool) :
  0 <= CPUStats.total R2 <= CPUStats.total R1 ->
  CPUStats.total R1 <= Long.MAX ->
  fst (cpu_usage_from R2 (mkSystemMonitor R1 false f l)) = Double.zero.
Proof.
  intros H Hmax. rewrite cpu_usage_warm. cbn [fst].
  unfold Long.sub at 1. rewrite Long_wrap_in_range
    by (unfold Long.in_range, Long.MIN, Long.MAX in *; lia).
  destruct (Z.ltb_spec 0 (CPUStats.total R2 - CPUStats.total R1));
    [lia | reflexivity].
Qed.

(** C1. A fresh tracker (whatever its uninitialised baseline holds)
    answers 0.0 to its first reading R1; to a second reading R2 with
    total(R2) > total(R1) it answers
    100 * (active(R2) - active(R1)) / (total(R2) - total(R1)), total being
    the sum of the eight counters and active the total minus idle minus
    iowait, for readings of non-negative counters whose sum a long holds.
    For R1 = {user 100, idle 900} and R2 = {user 200, idle 1800} the
    second answer is exactly 10.0. *)
Theorem cold_start_then_delta :
  (forall (R1 R2 junk : CPUStats.t) (f : string) (l : bool),
     CPUStats.well_formed R1 -> CPUStats.well_formed R2 ->
     let fresh := mkSystemMonitor junk true f l in
     let '(first, m1) := cpu_usage_from R1 fresh in
     let '(second, _) := cpu_usage_from R2 m1 in
     first = Double.zero /\
     (CounterSpec.total R1 < CounterSpec.total R2 ->
      second
      = (Double.hundred *
          (Double.of_Z (CounterSpec.active R2 - CounterSpec.active R1)
           / Double.of_Z (CounterSpec.total R2 - CounterSpec.total R1)))%D))
  /\
  (forall (junk : CPUStats.t) (f : string) (l : bool),
     let fresh := mkSystemMonitor junk true f l in
     fst (cpu_usage_from example_R2 (snd (cpu_usage_from example_R1 fresh)))
     = Double.ten).
Proof.
  split.
  - intros R1 R2 junk f l H1 H2 fresh. unfold fresh.
    rewrite cpu_usage_cold, cpu_usage_warm.
    rewrite total_delta_exact, active_delta_exact by assumption.
    split; [reflexivity |]. intros Hlt.
    destruct (Z.ltb_spec 0 (CounterSpec.total R2 - CounterSpec.total R1));
      [reflexivity | lia].
  - intros junk f l fresh. unfold fresh.
    rewrite cpu_usage_cold. cbn [snd].
    rewrite cpu_usage_warm. cbn [fst]. vm_compute. reflexivity.
Qed.

Lemma cold_start_then_delta_witness :
  CPUStats.well_formed example_R1 /\ CPUStats.well_formed example_R2 /\
  let fresh := mkSystemMonitor CPUStats.zeroed true EmptyString false in
  let '(first, m1) := cpu_usage_from example_R1 fresh in
  let '(second, _) := cpu_usage_from example_R2 m1 in
  first = Double.zero /\
  (CounterSpec.total example_R1 < CounterSpec.total example_R2 ->
   second
   = (Double.hundred *
       (Double.of_Z
          (CounterSpec.active example_R2 - CounterSpec.active example_R1)
        / Double.of_Z
            (CounterSpec.total example_R2 - CounterSpec.total example_R1)))%D).
Proof.
  assert (H1 : CPUStats.well_formed example_R1)
    by (vm_compute; intuition discriminate).
  assert (H2 : CPUStats.well_formed example_R2)
    by (vm_compute; intuition discriminate).
  split; [exact H1 |]. split; [exact H2 |].
  exact (proj1 cold_start_then_delta example_R1 example_R2 CPUStats.zeroed
           EmptyString false H1 H2).
Defined.

(** C4. A tracker whose previous reading is R1 answers exactly 0.0 to a
    reading R2 with total(R2) <= total(R1) (readings of non-negative
    counters whose sum a long holds); the answer is neither negative nor
    NaN. *)
Theorem regression_returns_zero (R1 R2 : CPUStats.t) (f : string) (l : bool) :
  CPUStats.well_formed R1 -> CPUStats.well_formed R2 ->
  CounterSpec.total R2 <= CounterSpec.total R1 ->
  let usage := fst (cpu_usage_from R2 (mkSystemMonitor R1 false f l)) in
  usage = Double.zero /\
  Double.ltb usage Double.zero = false /\ Double.is_nan usage = false.
Proof.
  intros H1 H2 Hle usage. unfold usage.
  rewrite cpu_usage_warm, total_delta_exact by assumption. cbn [fst].
  destruct (Z.ltb_spec 0 (CounterSpec.total R2 - CounterSpec.total R1));
    [lia |].
  repeat split.
Qed.

Lemma regression_returns_zero_witness :
  CPUStats.well_formed example_R2 /\ CPUStats.well_formed example_R1 /\
  CounterSpec.total example_R1 <= CounterSpec.total example_R2 /\
  fst (cpu_usage_from example_R1
         (mkSystemMonitor example_R2 false EmptyString false))
  = Double.zero.
Proof.
  assert (H1 : CPUStats.well_formed example_R1)
    by (vm_compute; intuition discriminate).
  assert (H2 : CPUStats.well_formed example_R2)
    by (vm_compute; intuition discriminate).
  assert (Hle : CounterSpec.total example_R1 <= CounterSpec.total example_R2)
    by (vm_compute; discriminate).
  split; [exact H2 |]. split; [exact H1 |]. split; [exact Hle |].
  exact (proj1 (regression_returns_zero example_R2 example_R1 EmptyString
                  false H2 H1 Hle)).
Defined.

(** C5. After every call of the tracker with a reading [current], on the
    cold-start path as on the delta path, the stored previous reading is
    [current] (and the tracker is no longer fresh). *)
Theorem baseline_replaced (current : CPUStats.t) (m : SystemMonitor) :
  prev_cpu_stats (snd (cpu_usage_from current m)) = current /\
  first_cpu_reading (snd (cpu_usage_from current m)) = false.
Proof. rewrite cpu_usage_from_state. split; reflexivity. Qed.

(** C10. A tracker whose previous reading is R answers exactly 0.0 to a
    reading identical to R, and still holds R as its previous reading; the
    answer is neither negative nor NaN. *)
Theorem duplicate_reading_returns_zero (R : CPUStats.t) (f : string)
    (l : bool) :
  cpu_usage_from R (mkSystemMonitor R false f l)
  = (Double.zero, mkSystemMonitor R false f l) /\
  let usage := fst (cpu_usage_from R (mkSystemMonitor R false f l)) in
  Double.ltb usage Double.zero = false /\ Double.is_nan usage = false.
Proof.
  rewrite cpu_usage_warm, Long_sub_diag.
  change (0 <? 0) with false. cbv iota. repeat split.
Qed.

(** ** The disk query *)

(** No exception leaves [get_disk_usage]. *)
Lemma get_disk_usage_eq (src : sources) (path : string) (w : world) :
  get_disk_usage src path w
  = (Return (disk_percent src path), disk_report src path w).
Proof.
  unfold get_disk_usage, fs_space, disk_percent, disk_report.
  destruct (disk src path) as [msg | space]; [reflexivity |].
  destruct (Double.ltb _ _); reflexivity.
Qed.

Lemma disk_report_stdout src path w : stdout (disk_report src path w) = stdout w.
Proof. unfold disk_report. destruct (disk src path); reflexivity. Qed.

Lemma disk_report_files src path w : files (disk_report src path w) = files w.
Proof. unfold disk_report. destruct (disk src path); reflexivity. Qed.

Lemma disk_report_sleeps src path w : sleeps (disk_report src path w) = sleeps w.
Proof. unfold disk_report. destruct (disk src path); reflexivity. Qed.

Lemma disk_report_elapsed src path w :
  elapsed (disk_report src path w) = elapsed w.
Proof. unfold disk_report. destruct (disk src path); reflexivity. Qed.

(** ** One sample *)

(** A sample always completes: [tick] never throws. *)
Lemma tick_eq (env : environment) (m : SystemMonitor) (w : world) :
  tick env m w
  = (Return (snd (get_cpu_usage (proc_stat (sources_at env (elapsed w))) m)),
     after_sample env m w).
Proof.
  unfold tick, after_sample, sample_line, sample_row.
  destruct (get_cpu_usage_log (proc_stat (sources_at env (elapsed w))) m)
    as [Hf Hl].
  destruct (get_cpu_usage _ m) as [cpu m1].
  rewrite get_disk_usage_eq. cbn [fst snd] in *.
  rewrite Hf, Hl. reflexivity.
Qed.

Lemma write_app_stdout env p l w : stdout (write_app env p l w) = stdout w.
Proof. unfold write_app. destruct (writable env p); reflexivity. Qed.

Lemma write_app_elapsed env p l w : elapsed (write_app env p l w) = elapsed w.
Proof. unfold write_app. destruct (writable env p); reflexivity. Qed.

Lemma after_sample_stdout env m w :
  stdout (after_sample env m w) = stdout w ++ [sample_line env m w].
Proof.
  unfold after_sample. cbn [sampled stdout].
  destruct (log_to_file m); [rewrite write_app_stdout |];
    cbn [print_out stdout]; rewrite disk_report_stdout; reflexivity.
Qed.

Lemma after_sample_elapsed env m w :
  elapsed (after_sample env m w) = S (elapsed w).
Proof.
  unfold after_sample. cbn [sampled elapsed]. f_equal.
  destruct (log_to_file m); [rewrite write_app_elapsed |];
    cbn [print_out elapsed]; apply disk_report_elapsed.
Qed.

(** The files after a sample: one row appended to the log when logging is
    on and the log can be opened, nothing otherwise. *)
Lemma after_sample_files env m w :
  files (after_sample env m w)
  = if log_to_file m && writable env (log_file m) then
      <[log_file m :=
          default [] (files w !! log_file m) ++ [sample_row env m w]]>
        (files w)
    else files w.
Proof.
  unfold after_sample. cbn [sampled files].
  destruct (log_to_file m); cbn [andb].
  - unfold write_app. destruct (writable env (log_file m));
      cbn [print_out files]; rewrite disk_report_files; reflexivity.
  - cbn [print_out files]. apply disk_report_files.
Qed.

(** C7. When the filesystem query for a path fails, [get_disk_usage]
    returns 0.0 and throws nothing; and a sample whose disk query fails
    still completes, its console line carrying the CPU and memory values
    computed from the two pseudo-files alone and 0.0 for the disk. *)
Theorem disk_failure_degrades_to_zero :
  (forall (src : sources) (path msg : string) (w : world),
     disk src path = inl msg ->
     exists w', get_disk_usage src path w = (Return Double.zero, w') /\
                stdout w' = stdout w /\ files w' = files w) /\
  (forall (env : environment) (m : SystemMonitor) (w : world) (msg : string),
     let src := sources_at env (elapsed w) in
     disk src "/" = inl msg ->
     exists m' w',
       tick env m w = (Return m', w') /\
       stdout w'
       = stdout w ++
         [Sample (get_timestamp src) (fst (get_cpu_usage (proc_stat src) m))
            (MemoryStats.used_percent
               (get_memory_stats (indeterminate src) (proc_meminfo src)))
            Double.zero]).
Proof.
  split.
  - intros src path msg w H. eexists. rewrite get_disk_usage_eq.
    unfold disk_percent, disk_report. rewrite H.
    split; [reflexivity |]. split; reflexivity.
  - intros env m w msg src H. do 2 eexists. rewrite tick_eq.
    split; [reflexivity |]. rewrite after_sample_stdout.
    unfold sample_line, disk_percent. fold src. rewrite H. reflexivity.
Qed.

(** ** The monitoring loop *)

Lemma paused_stdout c s w : stdout (paused c s w) = stdout w.
Proof. destruct c; reflexivity. Qed.

Lemma paused_files c s w : files (paused c s w) = files w.
Proof. destruct c; reflexivity. Qed.

Lemma paused_elapsed c s w : elapsed (paused c s w) = elapsed w.
Proof. destruct c; reflexivity. Qed.

(** One turn of the loop, when the condition holds and fuel is left. *)
Lemma monitor_loop_turn fuel env interval count i m w :
  continue count i = true ->
  monitor_loop (S fuel) env interval count i m w
  = monitor_loop fuel env interval count (Int.add i 1)
      (snd (get_cpu_usage (proc_stat (sources_at env (elapsed w))) m))
      (paused (continue count (Int.add i 1)) interval (after_sample env m w)).
Proof.
  intros H. cbn [monitor_loop]. rewrite H, tick_eq. reflexivity.
Qed.

Lemma monitor_loop_exit fuel env interval count i m w :
  continue count i = false ->
  monitor_loop fuel env interval count i m w = (Finished m, w).
Proof. intros H. destruct fuel; cbn [monitor_loop]; rewrite H; reflexivity. Qed.

Lemma continue_bounded (count i : Z) :
  0 <= count -> continue count i = (i <? count).
Proof.
  intros H. unfold continue.
  destruct (Z.eqb_spec count (-1)); [lia | reflexivity].
Qed.

Lemma continue_forever (i : Z) : continue (-1) i = true.
Proof. reflexivity. Qed.

Lemma continue_negative (count : Z) : count < -1 -> continue count 0 = false.
Proof.
  intros H. unfold continue.
  destruct (Z.eqb_spec count (-1)); [lia |].
  destruct (Z.ltb_spec 0 count); [lia | reflexivity].
Qed.

(** What [k] more turns of a bounded loop do: the loop returns, having
    taken [k] samples, printed [k] sample lines and, when the log can be
    written, appended [k] rows to it. *)
Lemma monitor_loop_bounded env interval (n : Z) :
  forall (k fuel : nat) (i : Z) (m : SystemMonitor) (w : world),
    0 <= i -> i + Z.of_nat k = n -> n <= Int.MAX -> (k <= fuel)%nat ->
    exists m' w' lines,
      monitor_loop fuel env interval n i m w = (Finished m', w') /\
      elapsed w' = (elapsed w + k)%nat /\
      stdout w' = stdout w ++ lines /\ length lines = k /\
      Forall (fun l => is_sample l = true) lines /\
      (log_to_file m && writable env (log_file m) = false ->
       files w' = files w) /\
      (log_to_file m && writable env (log_file m) = true ->
       forall old, files w !! log_file m = Some old ->
         exists rows,
           files w' !! log_file m = Some (old ++ rows) /\ length rows = k /\
           Forall (fun l => is_row l = true) rows).
Proof.
  induction k as [| k IH]; intros fuel i m w Hi Hn Hmax Hfuel.
  - exists m, w, []. rewrite monitor_loop_exit.
    2:{ rewrite continue_bounded by lia. apply Z.ltb_ge. lia. }
    rewrite Nat.add_0_r, !app_nil_r.
    repeat split; try reflexivity; try constructor.
    intros _ old H. exists []. rewrite app_nil_r. repeat split; auto.
  - destruct fuel as [| fuel]; [lia |].
    rewrite monitor_loop_turn.
    2:{ rewrite continue_bounded by lia. apply Z.ltb_lt. lia. }
    rewrite Int_succ by lia.
    set (m1 := snd (get_cpu_usage _ m)).
    set (w1 := paused _ interval (after_sample env m w)).
    destruct (get_cpu_usage_log (proc_stat (sources_at env (elapsed w))) m)
      as [Hf Hl]. fold m1 in Hf, Hl.
    destruct (IH fuel (i + 1) m1 w1) as
      (m' & w' & lines & Hrun & Hel & Hout & Hlen & Hall & Hoff & Hon);
      try lia.
    assert (Hout1 : stdout w1 = stdout w ++ [sample_line env m w])
      by (unfold w1; rewrite paused_stdout; apply after_sample_stdout).
    assert (Hel1 : elapsed w1 = S (elapsed w))
      by (unfold w1; rewrite paused_elapsed; apply after_sample_elapsed).
    assert (Hfiles1 : files w1 = files (after_sample env m w))
      by (unfold w1; apply paused_files).
    rewrite after_sample_files in Hfiles1. rewrite Hf, Hl in Hoff, Hon.
    exists m', w', (sample_line env m w :: lines).
    split; [exact Hrun |]. split; [lia |].
    split; [rewrite Hout, Hout1, <- app_assoc; reflexivity |].
    split; [cbn; lia |].
    split; [constructor; [reflexivity | exact Hall] |].
    split.
    + intros Hno. rewrite Hoff by exact Hno. rewrite Hfiles1, Hno. reflexivity.
    + intros Hyes old Hold. rewrite Hyes in Hfiles1.
      destruct (Hon Hyes (old ++ [sample_row env m w])) as (rows & Hr & Hl' & Hrows).
      { rewrite Hfiles1, lookup_insert_eq, Hold. reflexivity. }
      exists (sample_row env m w :: rows).
      split; [rewrite Hr, <- app_assoc; reflexivity |].
      split; [cbn; lia |]. constructor; [reflexivity | exact Hrows].
Qed.

(** With the sentinel the loop never returns: whatever the fuel, it is
    still running when the fuel is spent, one sample taken per unit. *)
Lemma monitor_loop_unbounded env interval :
  forall (fuel : nat) (i : Z) (m : SystemMonitor) (w : world),
    exists w' lines,
      monitor_loop fuel env interval (-1) i m w = (Unfinished, w') /\
      elapsed w' = (elapsed w + fuel)%nat /\
      stdout w' = stdout w ++ lines /\ length lines = fuel /\
      Forall (fun l => is_sample l = true) lines.
Proof.
  induction fuel as [| fuel IH]; intros i m w.
  - exists w, []. cbn [monitor_loop]. rewrite continue_forever, app_nil_r.
    repeat split; auto.
  - rewrite monitor_loop_turn by apply continue_forever.
    set (m1 := snd (get_cpu_usage _ m)).
    set (w1 := paused _ interval (after_sample env m w)).
    destruct (IH (Int.add i 1) m1 w1) as (w' & lines & Hrun & Hel & Hout & Hlen & Hall).
    assert (Hout1 : stdout w1 = stdout w ++ [sample_line env m w])
      by (unfold w1; rewrite paused_stdout; apply after_sample_stdout).
    assert (Hel1 : elapsed w1 = S (elapsed w))
      by (unfold w1; rewrite paused_elapsed; apply after_sample_elapsed).
    exists w', (sample_line env m w :: lines).
    split; [exact Hrun |]. split; [lia |].
    split; [rewrite Hout, Hout1, <- app_assoc; reflexivity |].
    split; [cbn; lia |]. constructor; [reflexivity | exact Hall].
Qed.

(** Every count but the sentinel makes the loop return. *)
Lemma monitor_returns env interval (count : Z) (fuel : nat) m w :
  count <> -1 -> count <= Int.MAX -> (Z.to_nat count <= fuel)%nat ->
  exists m' w', monitor fuel env interval count m w = (Finished m', w').
Proof.
  intros Hne Hmax Hfuel. unfold monitor.
  destruct (Z.lt_ge_cases count 0) as [Hneg | Hpos].
  - exists m, w. apply monitor_loop_exit. unfold continue.
    destruct (Z.eqb_spec count (-1)); [contradiction |].
    destruct (Z.ltb_spec 0 count); [lia | reflexivity].
  - destruct (monitor_loop_bounded env interval count (Z.to_nat count)
                fuel 0 m w)
      as (m' & w' & _ & Hrun & _); try lia.
    exists m', w'. exact Hrun.
Qed.

(** The constructor: the monitor it builds and what it does to the log. *)
Lemma SystemMonitor_new_no_log junk env w :
  SystemMonitor_new junk env EmptyString w
  = (mkSystemMonitor junk true EmptyString false, w).
Proof. reflexivity. Qed.

Lemma SystemMonitor_new_log junk env path w :
  path <> EmptyString ->
  SystemMonitor_new junk env path w
  = (mkSystemMonitor junk true path true, write_trunc env path csv_header w).
Proof.
  intros H. unfold SystemMonitor_new.
  destruct (String.eqb_spec path EmptyString); [contradiction | reflexivity].
Qed.

Lemma write_trunc_stdout env p l w : stdout (write_trunc env p l w) = stdout w.
Proof. unfold write_trunc. destruct (writable env p); reflexivity. Qed.

Lemma write_trunc_elapsed env p l w :
  elapsed (write_trunc env p l w) = elapsed w.
Proof. unfold write_trunc. destruct (writable env p); reflexivity. Qed.

Lemma write_trunc_files env p l w :
  writable env p = true -> files (write_trunc env p l w) !! p = Some [l].
Proof.
  intros H. unfold write_trunc. rewrite H. cbn [files].
  apply lookup_insert_eq.
Qed.

Lemma SystemMonitor_new_world junk env path w :
  stdout (snd (SystemMonitor_new junk env path w)) = stdout w /\
  elapsed (snd (SystemMonitor_new junk env path w)) = elapsed w.
Proof.
  unfold SystemMonitor_new. destruct (negb _); cbn [snd].
  - rewrite write_trunc_stdout, write_trunc_elapsed. split; reflexivity.
  - split; reflexivity.
Qed.

(** C6. A session started with a count n >= 0 returns after exactly n
    samples: n sample lines on the console and, when a log file is named
    (and can be opened for writing), a file that holds the header row
    followed by exactly n data rows, whatever it held before; without a
    log file no file is touched. *)
Theorem counted_session_takes_n_samples (n : Z) (fuel : nat)
    (junk : CPUStats.t) (env : environment) (interval : Z) (path : string)
    (w : world) :
  0 <= n <= Int.MAX -> (Z.to_nat n <= fuel)%nat ->
  exists m' w' lines,
    session fuel junk env (mkOptions interval n path) w = (Finished m', w') /\
    Z.of_nat (elapsed w') = Z.of_nat (elapsed w) + n /\
    stdout w' = stdout w ++ lines /\
    Z.of_nat (length lines) = n /\
    Forall (fun l => is_sample l = true) lines /\
    (path <> EmptyString -> writable env path = true ->
     exists rows,
       files w' !! path = Some (csv_header :: rows) /\
       Z.of_nat (length rows) = n /\
       Forall (fun l => is_row l = true) rows) /\
    (path = EmptyString -> files w' = files w).
Proof.
  intros Hn Hfuel. unfold session. cbn [opt_log_file opt_interval opt_count].
  destruct (SystemMonitor_new_world junk env path w) as [Hout0 Hel0].
  destruct (SystemMonitor_new junk env path w) as [m0 w0] eqn:Hnew.
  cbn [snd] in Hout0, Hel0. unfold monitor.
  destruct (monitor_loop_bounded env interval n (Z.to_nat n) fuel 0 m0 w0)
    as (m' & w' & lines & Hrun & Hel & Hout & Hlen & Hall & Hoff & Hon);
    try lia.
  exists m', w', lines.
  split; [exact Hrun |]. split; [lia |].
  split; [rewrite Hout, Hout0; reflexivity |].
  split; [lia |]. split; [exact Hall |]. split.
  - intros Hpath Hw. rewrite SystemMonitor_new_log in Hnew by exact Hpath.
    inversion Hnew; subst m0 w0. cbn [log_to_file log_file andb] in Hon.
    destruct (Hon Hw [csv_header]) as (rows & Hr & Hl & Hrows).
    { apply write_trunc_files, Hw. }
    exists rows. split; [exact Hr |]. split; [lia | exact Hrows].
  - intros ->. rewrite SystemMonitor_new_no_log in Hnew.
    inversion Hnew; subst m0 w0. apply Hoff. reflexivity.
Qed.

(** C9. A session started with a count below -1 returns at once: no
    sample is taken, nothing is printed, and the log, when one is named
    and can be opened, holds the header row alone.  A session started with
    -1 never returns, and one started with any other count does. *)
Theorem only_minus_one_runs_forever (junk : CPUStats.t) (env : environment)
    (interval : Z) (path : string) (w : world) :
  (forall (count : Z) (fuel : nat),
     count < -1 ->
     exists m' w',
       session fuel junk env (mkOptions interval count path) w
       = (Finished m', w') /\
       elapsed w' = elapsed w /\ stdout w' = stdout w /\
       (path <> EmptyString -> writable env path = true ->
        files w' !! path = Some [csv_header]) /\
       (path = EmptyString -> files w' = files w)) /\
  (forall fuel : nat,
     exists w' lines,
       session fuel junk env (mkOptions interval (-1) path) w
       = (Unfinished, w') /\
       elapsed w' = (elapsed w + fuel)%nat /\
       stdout w' = stdout w ++ lines /\ length lines = fuel) /\
  (forall count : Z,
     count <> -1 -> count <= Int.MAX ->
     exists m' w',
       session (Z.to_nat count) junk env (mkOptions interval count path) w
       = (Finished m', w')).
Proof.
  split; [| split].
  - intros count fuel Hc. unfold session, monitor.
    cbn [opt_log_file opt_interval opt_count].
    destruct (SystemMonitor_new_world junk env path w) as [Hout0 Hel0].
    destruct (SystemMonitor_new junk env path w) as [m0 w0] eqn:Hnew.
    cbn [snd] in Hout0, Hel0.
    rewrite monitor_loop_exit by (apply continue_negative, Hc).
    exists m0, w0. split; [reflexivity |].
    split; [exact Hel0 |]. split; [exact Hout0 |]. split.
    + intros Hpath Hw. rewrite SystemMonitor_new_log in Hnew by exact Hpath.
      inversion Hnew. apply write_trunc_files, Hw.
    + intros ->. rewrite SystemMonitor_new_no_log in Hnew.
      inversion Hnew. reflexivity.
  - intros fuel. unfold session, monitor.
    cbn [opt_log_file opt_interval opt_count].
    destruct (SystemMonitor_new_world junk env path w) as [Hout0 Hel0].
    destruct (SystemMonitor_new junk env path w) as [m0 w0].
    cbn [snd] in Hout0, Hel0.
    destruct (monitor_loop_unbounded env interval fuel 0 m0 w0)
      as (w' & lines & Hrun & Hel & Hout & Hlen & _).
    exists w', lines. split; [exact Hrun |]. split; [lia |].
    split; [rewrite Hout, Hout0; reflexivity | exact Hlen].
  - intros count Hne Hmax. unfold session.
    cbn [opt_log_file opt_interval opt_count].
    destruct (SystemMonitor_new junk env path w) as [m0 w0].
    apply monitor_returns; [exact Hne | exact Hmax | lia].
Qed.

(** ** Sources that cannot be opened *)

Lemma get_cpu_stats_unopened : get_cpu_stats None = CPUStats.zeroed.
Proof. reflexivity. Qed.

Lemma get_memory_stats_unopened (j : Z) :
  get_memory_stats j None = MemoryStats.zeroed.
Proof. reflexivity. Qed.

(** C3, as stated, fails: with both pseudo-files unopenable the two
    readers return the all-zero readings, the sample does not throw and
    its line is printed, and [main] returns 0. *)
Lemma unopenable_sources_still_sample :
  get_cpu_stats (proc_stat unreadable_sources) = CPUStats.zeroed /\
  get_memory_stats 0 (proc_meminfo unreadable_sources) = MemoryStats.zeroed /\
  (forall e w', tick unreadable_env fresh_monitor empty_world <> (Raise e, w')) /\
  (exists m' w' line,
     tick unreadable_env fresh_monitor empty_world = (Return m', w') /\
     stdout w' = [line] /\ is_sample line = true) /\
  fst (main 1 CPUStats.zeroed unreadable_env ["system_monitor"; "-c"; "1"]
         empty_world) = Exited 0.
Proof.
  split; [reflexivity |]. split; [reflexivity |].
  split; [| split].
  - intros e w'. rewrite tick_eq. discriminate.
  - do 3 eexists. rewrite tick_eq. split; [reflexivity |].
    rewrite after_sample_stdout. split; reflexivity.
  - vm_compute. reflexivity.
Qed.

(** C3, amended. When the CPU or the memory pseudo-file cannot be opened,
    the reader concerned throws nothing and returns the all-zero reading,
    and the sample completes: the tracker takes the all-zero reading as
    its new baseline, respectively the memory percentage is the one of the
    all-zero reading, and the line of the sample is printed. *)
Theorem unopenable_source_reads_zero (env : environment) (m : SystemMonitor)
    (w : world) :
  let src := sources_at env (elapsed w) in
  proc_stat src = None \/ proc_meminfo src = None ->
  exists m' w' ts cpu mem dsk,
    tick env m w = (Return m', w') /\
    stdout w' = stdout w ++ [Sample ts cpu mem dsk] /\
    (proc_stat src = None ->
     get_cpu_stats (proc_stat src) = CPUStats.zeroed /\
     prev_cpu_stats m' = CPUStats.zeroed /\
     cpu = fst (cpu_usage_from CPUStats.zeroed m)) /\
    (proc_meminfo src = None ->
     get_memory_stats (indeterminate src) (proc_meminfo src)
     = MemoryStats.zeroed /\
     mem = MemoryStats.used_percent MemoryStats.zeroed).
Proof.
  intros src _. do 6 eexists. rewrite tick_eq.
  split; [reflexivity |]. rewrite after_sample_stdout.
  split; [reflexivity |]. fold src. split.
  - intros ->. split; [reflexivity |].
    rewrite get_cpu_usage_baseline. unfold get_cpu_usage.
    rewrite get_cpu_stats_unopened. split; reflexivity.
  - intros ->. rewrite get_memory_stats_unopened. split; reflexivity.
Qed.

Lemma unopenable_source_reads_zero_witness :
  proc_stat (sources_at unreadable_env (elapsed empty_world)) = None /\
  exists m' w',
    tick unreadable_env
      (mkSystemMonitor example_R1 false EmptyString false) empty_world
    = (Return m', w') /\
    prev_cpu_stats m' = CPUStats.zeroed /\ length (stdout w') = 1%nat.
Proof.
  split; [reflexivity |].
  destruct (unopenable_source_reads_zero unreadable_env
              (mkSystemMonitor example_R1 false EmptyString false) empty_world
              (or_introl eq_refl))
    as (m' & w' & ts & cpu & mem & dsk & Ht & Hout & Hcpu & _).
  exists m', w'. split; [exact Ht |].
  split; [exact (proj1 (proj2 (Hcpu eq_refl))) |].
  rewrite Hout. reflexivity.
Defined.

(** ** The memory percentage *)

(** C2 fails on the code: [used_percent] divides by [total] without a
    test.  With total = 0 and available = 0, the reading that
    [get_memory_stats] delivers when [/proc/meminfo] cannot be opened, the
    result is NaN: it is not 0.0 and it is not in [0, 100]. *)
Theorem used_percent_zero_total_is_nan :
  (forall free buffers cached : Z,
     MemoryStats.used_percent (MemoryStats.mk 0 free 0 buffers cached)
     = S754_nan) /\
  (forall j : Z,
     MemoryStats.used_percent (get_memory_stats j None) = S754_nan) /\
  S754_nan <> Double.zero /\
  Double.leb Double.zero S754_nan = false /\
  Double.leb S754_nan Double.hundred = false.
Proof.
  split; [intros; reflexivity |]. split; [intros; reflexivity |].
  split; [discriminate |]. split; reflexivity.
Qed.

(** With total = 0 and a positive available the quotient is infinite and
    the percentage is minus infinity. *)
Lemma used_percent_zero_total_infinite :
  MemoryStats.used_percent (MemoryStats.mk 0 0 5 0 0) = S754_infinity true.
Proof. reflexivity. Qed.

(** ** The exit code *)

(** No exception leaves the loop. *)
Lemma monitor_loop_never_throws env interval count :
  forall (fuel : nat) (i : Z) (m : SystemMonitor) (w : world) e,
    fst (monitor_loop fuel env interval count i m w) <> Threw e.
Proof.
  induction fuel as [| fuel IH]; intros i m w e.
  - cbn [monitor_loop]. destruct (continue count i); discriminate.
  - destruct (continue count i) eqn:Hc.
    + rewrite monitor_loop_turn by exact Hc. apply IH.
    + rewrite monitor_loop_exit by exact Hc. discriminate.
Qed.

(** Whenever [main] returns, it returns 0: the handler that returns 1 is
    never entered, since nothing throws inside the [try] block. *)
Lemma main_exit_code fuel junk env argv w code :
  fst (main fuel junk env argv w) = Exited code -> code = 0.
Proof.
  unfold main.
  destruct (parse_args (tl argv) default_options) as [[o |] | e];
    cbn [fst]; try congruence.
  unfold session. destruct (SystemMonitor_new _ _ _ _) as [m0 w0].
  unfold monitor.
  pose proof (monitor_loop_never_throws env (opt_interval o) (opt_count o)
                fuel 0 m0 w0) as Hno.
  destruct (monitor_loop _ _ _ _ _ _ _) as [[m' | e | ] w'];
    cbn [fst] in *; try congruence.
  exfalso. exact (Hno e eq_refl).
Qed.

(** A run whose count is not the sentinel returns 0, given the fuel for
    its samples. *)
Lemma main_counted_exits_zero fuel junk env argv w o :
  parse_args (tl argv) default_options = Return (Some o) ->
  opt_count o <> -1 -> opt_count o <= Int.MAX ->
  (Z.to_nat (opt_count o) <= fuel)%nat ->
  fst (main fuel junk env argv w) = Exited 0.
Proof.
  intros Hargs Hne Hmax Hfuel. unfold main, session. rewrite Hargs.
  destruct (SystemMonitor_new _ _ _ _) as [m0 w0].
  destruct (monitor_returns env (opt_interval o) (opt_count o) fuel m0 w0)
    as (m' & w' & ->); try assumption.
  reflexivity.
Qed.

Lemma main_help fuel junk env w :
  main fuel junk env ["system_monitor"; "--help"] w = (Exited 0, print_help w).
Proof. reflexivity. Qed.

(** C8 fails on the code: the values of the options are converted by
    [std::stoi] before the [try] block is entered.  With the arguments
    [-c abc] (or a count that no [int] holds) the exception leaves [main]:
    the process is aborted by [std::terminate], it does not return 1, and
    nothing is printed by the handler. *)
Theorem bad_option_value_aborts (fuel : nat) (junk : CPUStats.t)
    (env : environment) (w : world) :
  main fuel junk env ["system_monitor"; "-c"; "abc"] w
  = (Terminated (invalid_argument "stoi"), w) /\
  main fuel junk env ["system_monitor"; "-i"; "99999999999"] w
  = (Terminated (out_of_range "stoi"), w) /\
  fst (main fuel junk env ["system_monitor"; "-c"; "abc"] w) <> Exited 1.
Proof.
  split; [reflexivity |]. split; [reflexivity | discriminate].
Qed.

(** ** The worked example, end to end *)

Example get_cpu_stats_example :
  get_cpu_stats (proc_stat (example_sources 0)) = example_R1 /\
  get_cpu_stats (proc_stat (example_sources 1)) = example_R2 /\
  get_memory_stats 0 (proc_meminfo (example_sources 0))
  = MemoryStats.mk 16000000 1000000 4000000 0 0.
Proof. repeat split. Qed.

(** An older kernel line without the last fields, and a line cut short by
    a token that is not a number: the fields not read stay 0. *)
Example get_cpu_stats_short_lines :
  get_cpu_stats (Some "cpu 7 1 2 90") = CPUStats.mk 7 1 2 90 0 0 0 0 /\
  get_cpu_stats (Some "cpu 7 1 x 90") = CPUStats.mk 7 1 0 0 0 0 0 0 /\
  get_cpu_stats (Some "") = CPUStats.zeroed.
Proof. repeat split. Qed.

(** The quotient and the product are each rounded to the nearest double:
    with an active delta of 7 on a total delta of 100 the usage is the
    double next above 7. *)
Example cpu_usage_is_rounded :
  fst (cpu_usage_from (CPUStats.mk 107 0 0 993 0 0 0 0)
         (mkSystemMonitor example_R1 false EmptyString false))
  = S754_finite false 7881299347898369 (-50) /\
  Double.of_Z 7 = S754_finite false 7881299347898368 (-50).
Proof. split; vm_compute; reflexivity. Qed.

(** Two samples of the example system: 0.0 then 10.0 for the CPU, 75.0
    for the memory and 50.0 for the disk, one pause between them. *)
Example main_two_samples :
  main 2 CPUStats.zeroed example_env ["system_monitor"; "-c"; "2"] empty_world
  = (Exited 0,
     mkWorld
       [ Sample "2024-01-01 00:00:00" Double.zero (Double.of_Z 75)
           (Double.of_Z 50);
         Sample "2024-01-01 00:00:00" Double.ten (Double.of_Z 75)
           (Double.of_Z 50) ]
       [] ∅ [1] 2).
Proof. vm_compute. reflexivity. Qed.

(** ** The properties at concrete inputs *)

Lemma disk_failure_degrades_to_zero_witness :
  disk (diskless_sources 0) "/" = inl "No such file or directory" /\
  exists m' w',
    tick diskless_env (mkSystemMonitor example_R1 false EmptyString false)
      empty_world
    = (Return m', w') /\
    exists ts cpu mem, stdout w' = [Sample ts cpu mem Double.zero].
Proof.
  split; [reflexivity |].
  destruct (proj2 disk_failure_degrades_to_zero diskless_env
              (mkSystemMonitor example_R1 false EmptyString false)
              empty_world "No such file or directory" eq_refl)
    as (m' & w' & Ht & Hout).
  exists m', w'. split; [exact Ht |].
  do 3 eexists. exact Hout.
Defined.

Lemma counted_session_takes_n_samples_witness :
  0 <= 3 <= Int.MAX /\ (Z.to_nat 3 <= 5)%nat /\
  exists m' w' lines rows,
    session 5 CPUStats.zeroed example_env (mkOptions 0 3 "log.csv")
      empty_world
    = (Finished m', w') /\
    stdout w' = lines /\ Z.of_nat (length lines) = 3 /\
    files w' !! "log.csv" = Some (csv_header :: rows) /\
    Z.of_nat (length rows) = 3.
Proof.
  assert (H1 : 0 <= 3 <= Int.MAX) by (unfold Int.MAX; lia).
  assert (H2 : (Z.to_nat 3 <= 5)%nat) by (cbn; lia).
  split; [exact H1 |]. split; [exact H2 |].
  destruct (counted_session_takes_n_samples 3 5 CPUStats.zeroed example_env 0
              "log.csv" empty_world H1 H2)
    as (m' & w' & lines & Hrun & _ & Hout & Hlen & _ & Hlog & _).
  destruct (Hlog ltac:(discriminate) eq_refl) as (rows & Hfile & Hrows & _).
  exists m', w', lines, rows.
  split; [exact Hrun |]. split; [exact Hout |]. split; [exact Hlen |].
  split; [exact Hfile | exact Hrows].
Defined.

Lemma only_minus_one_runs_forever_witness :
  -2 < -1 /\
  exists m' w',
    session 0 CPUStats.zeroed example_env (mkOptions 1 (-2) "log.csv")
      empty_world
    = (Finished m', w') /\
    stdout w' = [] /\ files w' !! "log.csv" = Some [csv_header].
Proof.
  assert (H : -2 < -1) by lia.
  split; [exact H |].
  destruct (proj1 (only_minus_one_runs_forever CPUStats.zeroed example_env 1
                     "log.csv" empty_world) (-2) 0%nat H)
    as (m' & w' & Hrun & _ & Hout & Hlog & _).
  exists m', w'. split; [exact Hrun |]. split; [exact Hout |].
  exact (Hlog ltac:(discriminate) eq_refl).
Defined.

(* ===================================================================== *)
(** * Further properties *)

(** ** The trace of the monitoring loop *)

Lemma usage_between_eq prev current f l :
  fst (cpu_usage_from current (mkSystemMonitor prev false f l))
  = usage_between prev current.
Proof. unfold usage_between. rewrite !cpu_usage_warm. cbn [fst]. reflexivity. Qed.

Lemma disk_report_stderr src w :
  stderr (disk_report src "/" w) = stderr w ++ disk_complaint src.
Proof.
  unfold disk_report, disk_complaint.
  destruct (disk src "/"); [reflexivity |]. symmetry. apply app_nil_r.
Qed.

Lemma write_app_stderr env p l w : stderr (write_app env p l w) = stderr w.
Proof. unfold write_app. destruct (writable env p); reflexivity. Qed.

Lemma write_app_sleeps env p l w : sleeps (write_app env p l w) = sleeps w.
Proof. unfold write_app. destruct (writable env p); reflexivity. Qed.

Lemma after_sample_stderr env m w :
  stderr (after_sample env m w)
  = stderr w ++ disk_complaint (sources_at env (elapsed w)).
Proof.
  unfold after_sample. cbn [sampled stderr].
  destruct (log_to_file m); [rewrite write_app_stderr |];
    cbn [print_out stderr]; apply disk_report_stderr.
Qed.

Lemma after_sample_sleeps env m w : sleeps (after_sample env m w) = sleeps w.
Proof.
  unfold after_sample. cbn [sampled sleeps].
  destruct (log_to_file m); [rewrite write_app_sleeps |];
    cbn [print_out sleeps]; apply disk_report_sleeps.
Qed.

Lemma paused_stderr c s w : stderr (paused c s w) = stderr w.
Proof. destruct c; reflexivity. Qed.

Lemma paused_sleeps c s w :
  sleeps (paused c s w) = sleeps w ++ (if c then [s] else []).
Proof. destruct c; [reflexivity |]. symmetry. apply app_nil_r. Qed.

Lemma sample_line_loop_line env m w :
  sample_line env m w = loop_line env m (elapsed w) 0.
Proof. unfold sample_line, loop_line. rewrite Nat.add_0_r. reflexivity. Qed.

Lemma sample_row_loop_line env m w :
  sample_row env m w = row_of_line (loop_line env m (elapsed w) 0).
Proof. unfold sample_row, loop_line. rewrite Nat.add_0_r. reflexivity. Qed.

(** The lines after the first do not depend on the monitor that entered
    the loop, but on the reading it took. *)
Lemma loop_line_shift env m t0 k :
  loop_line env
    (snd (get_cpu_usage (proc_stat (sources_at env t0)) m)) (S t0) k
  = loop_line env m t0 (S k).
Proof.
  unfold loop_line. rewrite Nat.add_succ_comm.
  f_equal. destruct k as [| j].
  - unfold get_cpu_usage. rewrite cpu_usage_from_state, usage_between_eq.
    unfold reading_at. rewrite Nat.add_0_r. reflexivity.
  - rewrite !Nat.add_succ_comm. reflexivity.
Qed.

Lemma map_seq_S {A : Type} (f : nat -> A) (k : nat) :
  map f (seq 0 (S k)) = f 0%nat :: map (fun j => f (S j)) (seq 0 k).
Proof. cbn [seq map]. rewrite <- seq_shift, map_map. reflexivity. Qed.

Lemma flat_map_seq_S {A : Type} (f : nat -> list A) (k : nat) :
  flat_map f (seq 0 (S k)) = f 0%nat ++ flat_map (fun j => f (S j)) (seq 0 k).
Proof.
  cbn [seq flat_map]. rewrite <- seq_shift. f_equal.
  induction (seq 0 k) as [| x xs IH]; [reflexivity |].
  cbn [map flat_map]. rewrite IH. reflexivity.
Qed.

Lemma flat_map_all_nil {A B : Type} (f : A -> list B) (l : list A) :
  (forall x, In x l -> f x = []) -> flat_map f l = [].
Proof.
  induction l as [| x l IH]; intros H; [reflexivity |].
  cbn [flat_map]. rewrite (H x) by (left; reflexivity).
  apply IH. intros y Hy. apply H. right. exact Hy.
Qed.

(** Everything that [k] more turns of a bounded loop do to the world. *)
Lemma monitor_loop_trace env interval (n : Z) :
  forall (k fuel : nat) (i : Z) (m : SystemMonitor) (w : world),
    0 <= i -> i + Z.of_nat k = n -> n <= Int.MAX -> (k <= fuel)%nat ->
    exists m' w',
      monitor_loop fuel env interval n i m w = (Finished m', w') /\
      stdout w'
      = stdout w ++ map (loop_line env m (elapsed w)) (seq 0 k) /\
      stderr w'
      = stderr w ++
        flat_map (fun j => disk_complaint (sources_at env (elapsed w + j)))
          (seq 0 k) /\
      sleeps w' = sleeps w ++ repeat interval (Nat.pred k) /\
      elapsed w' = (elapsed w + k)%nat /\
      log_file m' = log_file m /\ log_to_file m' = log_to_file m /\
      (k <> 0%nat ->
       prev_cpu_stats m' = reading_at env (elapsed w + Nat.pred k) /\
       first_cpu_reading m' = false) /\
      (forall p, p <> log_file m -> files w' !! p = files w !! p) /\
      (log_to_file m && writable env (log_file m) = false ->
       files w' = files w) /\
      (log_to_file m && writable env (log_file m) = true ->
       forall old, files w !! log_file m = Some old ->
         files w' !! log_file m
         = Some (old ++
                 map (fun j => row_of_line (loop_line env m (elapsed w) j))
                   (seq 0 k))).
Proof.
  induction k as [| k IH]; intros fuel i m w Hi Hn Hmax Hfuel.
  - exists m, w. rewrite monitor_loop_exit.
    2:{ rewrite continue_bounded by lia. apply Z.ltb_ge. lia. }
    cbn [seq map flat_map repeat Nat.pred]. rewrite !app_nil_r, Nat.add_0_r.
    repeat split; try reflexivity; try congruence.
    intros _ old H. rewrite app_nil_r. exact H.
  - destruct fuel as [| fuel]; [lia |].
    rewrite monitor_loop_turn.
    2:{ rewrite continue_bounded by lia. apply Z.ltb_lt. lia. }
    rewrite Int_succ by lia.
    set (t0 := elapsed w).
    set (m1 := snd (get_cpu_usage (proc_stat (sources_at env t0)) m)).
    set (c := continue n (i + 1)).
    set (w1 := paused c interval (after_sample env m w)).
    destruct (get_cpu_usage_log (proc_stat (sources_at env t0)) m)
      as [Hf Hl]. fold m1 in Hf, Hl.
    assert (Hout1 : stdout w1 = stdout w ++ [loop_line env m t0 0])
      by (unfold w1; rewrite paused_stdout, after_sample_stdout,
            sample_line_loop_line; reflexivity).
    assert (Herr1 : stderr w1 = stderr w ++ disk_complaint (sources_at env t0))
      by (unfold w1; rewrite paused_stderr; apply after_sample_stderr).
    assert (Hsl1 : sleeps w1 = sleeps w ++ (if c then [interval] else []))
      by (unfold w1; rewrite paused_sleeps, after_sample_sleeps; reflexivity).
    assert (Hel1 : elapsed w1 = S t0)
      by (unfold w1; rewrite paused_elapsed; apply after_sample_elapsed).
    assert (Hfiles1 : files w1 = files (after_sample env m w))
      by (unfold w1; apply paused_files).
    rewrite after_sample_files, sample_row_loop_line in Hfiles1. fold t0 in Hfiles1.
    destruct (IH fuel (i + 1) m1 w1) as
      (m' & w' & Hrun & Hout & Herr & Hsl & Hel & Hf' & Hl' & Hprev & Hframe
         & Hoff & Hon); try lia.
    rewrite Hel1 in Hout, Herr, Hel, Hprev, Hon.
    rewrite Hf, Hl in *.
    exists m', w'. split; [exact Hrun |].
    split.
    { rewrite Hout, Hout1, <- app_assoc, map_seq_S. cbn [app]. do 2 f_equal.
      apply map_ext. intros j. apply loop_line_shift. }
    split.
    { rewrite Herr, Herr1, <- app_assoc, flat_map_seq_S, Nat.add_0_r.
      do 2 f_equal. apply flat_map_ext. intros j.
      rewrite Nat.add_succ_comm. reflexivity. }
    split.
    { rewrite Hsl, Hsl1, <- app_assoc. f_equal. unfold c.
      rewrite continue_bounded by lia. destruct k as [| k'].
      - destruct (Z.ltb_spec (i + 1) n); [lia | reflexivity].
      - destruct (Z.ltb_spec (i + 1) n); [reflexivity | lia]. }
    split; [lia |]. split; [exact Hf' |]. split; [exact Hl' |].
    split.
    { intros _. cbn [Nat.pred]. destruct k as [| k'].
      - rewrite monitor_loop_exit in Hrun.
        2:{ rewrite continue_bounded by lia. apply Z.ltb_ge. lia. }
        inversion Hrun; subst m'. unfold m1.
        rewrite get_cpu_usage_baseline. unfold get_cpu_usage.
        rewrite cpu_usage_from_state. rewrite Nat.add_0_r.
        split; reflexivity.
      - destruct Hprev as [Hp Hfr]; [discriminate |].
        rewrite Hp. cbn [Nat.pred]. rewrite Nat.add_succ_comm.
        split; [reflexivity | exact Hfr]. }
    split.
    { intros p Hp. rewrite Hframe by exact Hp. rewrite Hfiles1.
      destruct (log_to_file m && writable env (log_file m)); [| reflexivity].
      apply lookup_insert_ne. congruence. }
    split.
    + intros Hno. rewrite Hoff by exact Hno. rewrite Hfiles1, Hno. reflexivity.
    + intros Hyes old Hold. rewrite Hyes in Hfiles1.
      rewrite (Hon Hyes (old ++ [row_of_line (loop_line env m t0 0)])).
      2:{ rewrite Hfiles1, lookup_insert_eq, Hold. reflexivity. }
      rewrite <- app_assoc, map_seq_S. cbn [app]. do 3 f_equal.
      apply map_ext. intros j. f_equal. apply loop_line_shift.
Qed.

(** Whatever the count and the fuel, the loop only adds sample lines to
    the console, takes one sample per line and leaves every file but the
    log as it was. *)
Lemma monitor_loop_frame env interval count :
  forall (fuel : nat) (i : Z) (m : SystemMonitor) (w : world),
    let w' := snd (monitor_loop fuel env interval count i m w) in
    exists k : nat,
      (k <= fuel)%nat /\
      stdout w' = stdout w ++ map (loop_line env m (elapsed w)) (seq 0 k) /\
      elapsed w' = (elapsed w + k)%nat /\
      (forall p, p <> log_file m -> files w' !! p = files w !! p) /\
      (log_to_file m = false -> files w' = files w).
Proof.
  induction fuel as [| fuel IH]; intros i m w w'; subst w'.
  - exists 0%nat. cbn [monitor_loop].
    destruct (continue count i); cbn [snd seq map];
      rewrite app_nil_r, Nat.add_0_r; repeat split; reflexivity.
  - destruct (continue count i) eqn:Hc.
    2:{ exists 0%nat. rewrite monitor_loop_exit by exact Hc.
        cbn [snd seq map]. rewrite app_nil_r, Nat.add_0_r.
        repeat split; try reflexivity. lia. }
    rewrite monitor_loop_turn by exact Hc.
    set (t0 := elapsed w).
    set (m1 := snd (get_cpu_usage (proc_stat (sources_at env t0)) m)).
    set (w1 := paused _ interval (after_sample env m w)).
    destruct (get_cpu_usage_log (proc_stat (sources_at env t0)) m)
      as [Hf Hl]. fold m1 in Hf, Hl.
    assert (Hout1 : stdout w1 = stdout w ++ [loop_line env m t0 0])
      by (unfold w1; rewrite paused_stdout, after_sample_stdout,
            sample_line_loop_line; reflexivity).
    assert (Hel1 : elapsed w1 = S t0)
      by (unfold w1; rewrite paused_elapsed; apply after_sample_elapsed).
    assert (Hfiles1 : files w1 = files (after_sample env m w))
      by (unfold w1; apply paused_files).
    rewrite after_sample_files in Hfiles1.
    destruct (IH (Int.add i 1) m1 w1) as (k & Hk & Hout & Hel & Hframe & Hoff).
    rewrite Hel1 in Hout, Hel. rewrite Hf, Hl in *.
    exists (S k). split; [lia |]. split.
    { rewrite Hout, Hout1, <- app_assoc, map_seq_S. cbn [app]. do 2 f_equal.
      apply map_ext. intros j. apply loop_line_shift. }
    split; [lia |]. split.
    + intros p Hp. rewrite Hframe by exact Hp. rewrite Hfiles1.
      destruct (log_to_file m && writable env (log_file m)); [| reflexivity].
      apply lookup_insert_ne. congruence.
    + intros Hno. rewrite Hoff by exact Hno. rewrite Hfiles1, Hno.
      reflexivity.
Qed.

(** A monitor just built answers 0.0 first. *)
Lemma loop_line_fresh env junk f l t0 k :
  loop_line env (mkSystemMonitor junk true f l) t0 k = session_line env t0 k.
Proof.
  unfold loop_line, session_line. destruct k as [| j]; [| reflexivity].
  unfold get_cpu_usage. rewrite cpu_usage_cold. reflexivity.
Qed.

Lemma SystemMonitor_new_fresh junk env path w :
  fst (SystemMonitor_new junk env path w)
  = mkSystemMonitor junk true path (negb (String.eqb path EmptyString)).
Proof. unfold SystemMonitor_new. destruct (negb _); reflexivity. Qed.

Lemma SystemMonitor_new_stderr junk env path w :
  stderr (snd (SystemMonitor_new junk env path w)) = stderr w /\
  sleeps (snd (SystemMonitor_new junk env path w)) = sleeps w.
Proof.
  unfold SystemMonitor_new, write_trunc.
  destruct (negb _); [destruct (writable env path) |]; split; reflexivity.
Qed.

Lemma SystemMonitor_new_frame junk env path w p :
  p <> path -> files (snd (SystemMonitor_new junk env path w)) !! p = files w !! p.
Proof.
  intros Hp. unfold SystemMonitor_new, write_trunc.
  destruct (negb _); [destruct (writable env path) |]; cbn [snd files];
    try reflexivity.
  apply lookup_insert_ne. congruence.
Qed.

Lemma SystemMonitor_new_files junk env path w :
  path <> EmptyString -> writable env path = true ->
  files (snd (SystemMonitor_new junk env path w)) !! path = Some [csv_header].
Proof.
  intros Hpath Hw. rewrite SystemMonitor_new_log by exact Hpath.
  apply write_trunc_files, Hw.
Qed.

(** The whole of a counted session, from the trace of its loop. *)
Lemma session_trace (n : Z) (fuel : nat) junk env interval path w :
  0 <= n <= Int.MAX -> (Z.to_nat n <= fuel)%nat ->
  exists m' w',
    session fuel junk env (mkOptions interval n path) w = (Finished m', w') /\
    stdout w'
    = stdout w ++ map (session_line env (elapsed w)) (seq 0 (Z.to_nat n)) /\
    stderr w'
    = stderr w ++
      flat_map (fun j => disk_complaint (sources_at env (elapsed w + j)))
        (seq 0 (Z.to_nat n)) /\
    sleeps w' = sleeps w ++ repeat interval (Nat.pred (Z.to_nat n)) /\
    (n <> 0 ->
     prev_cpu_stats m' = reading_at env (elapsed w + Nat.pred (Z.to_nat n)) /\
     first_cpu_reading m' = false) /\
    (path <> EmptyString -> writable env path = true ->
     files w' !! path
     = Some (csv_header ::
             map (fun j => row_of_line (session_line env (elapsed w) j))
               (seq 0 (Z.to_nat n)))).
Proof.
  intros Hn Hfuel. unfold session. cbn [opt_log_file opt_interval opt_count].
  destruct (SystemMonitor_new_world junk env path w) as [Hout0 Hel0].
  destruct (SystemMonitor_new_stderr junk env path w) as [Herr0 Hsl0].
  pose proof (SystemMonitor_new_fresh junk env path w) as Hm0.
  pose proof (SystemMonitor_new_files junk env path w) as Hfiles0.
  destruct (SystemMonitor_new junk env path w) as [m0 w0].
  cbn [fst snd] in *. subst m0. unfold monitor.
  destruct (monitor_loop_trace env interval n (Z.to_nat n) fuel 0
              (mkSystemMonitor junk true path
                 (negb (String.eqb path EmptyString))) w0)
    as (m' & w' & Hrun & Hout & Herr & Hsl & Hel & _ & _ & Hprev & _ & _ & Hon);
    try lia.
  rewrite Hel0 in *. cbn [log_file log_to_file] in Hon.
  exists m', w'. split; [exact Hrun |].
  split.
  { rewrite Hout, Hout0. apply (f_equal (fun l => stdout w ++ l)).
    apply map_ext. intros j. apply loop_line_fresh. }
  split; [rewrite Herr, Herr0; reflexivity |].
  split; [rewrite Hsl, Hsl0; reflexivity |].
  split; [intros Hne; apply Hprev; lia |].
  intros Hpath Hw.
  destruct (String.eqb_spec path EmptyString) as [-> | _]; [contradiction |].
  cbn [negb andb] in Hon.
  rewrite (Hon Hw [csv_header] (Hfiles0 Hpath Hw)). cbn [app].
  apply (f_equal (fun l => Some (csv_header :: l))).
  apply map_ext. intros j. rewrite loop_line_fresh. reflexivity.
Qed.

(** ** What a counted session does *)

(** X1. The console of a counted session, line by line: sample [k] shows
    the memory and disk percentages of the sources at that sample, and as
    CPU usage 0.0 for the first sample and, for every later one, the usage
    between the reading of the sample before and its own reading. *)
Theorem session_console_is_windowed (n : Z) (fuel : nat) (junk : CPUStats.t)
    (env : environment) (interval : Z) (path : string) (w : world) :
  0 <= n <= Int.MAX -> (Z.to_nat n <= fuel)%nat ->
  stdout (snd (session fuel junk env (mkOptions interval n path) w))
  = stdout w ++ map (session_line env (elapsed w)) (seq 0 (Z.to_nat n)).
Proof.
  intros Hn Hfuel.
  destruct (session_trace n fuel junk env interval path w Hn Hfuel)
    as (m' & w' & -> & Hout & _). exact Hout.
Qed.

Lemma session_console_is_windowed_witness :
  0 <= 2 <= Int.MAX /\ (Z.to_nat 2 <= 2)%nat /\
  stdout (snd (session 2 CPUStats.zeroed example_env (mkOptions 1 2 EmptyString)
                 empty_world))
  = [session_line example_env 0 0; session_line example_env 0 1].
Proof.
  assert (H1 : 0 <= 2 <= Int.MAX) by (unfold Int.MAX; lia).
  assert (H2 : (Z.to_nat 2 <= 2)%nat) by (cbn; lia).
  split; [exact H1 |]. split; [exact H2 |].
  exact (session_console_is_windowed 2 2 CPUStats.zeroed example_env 1
           EmptyString empty_world H1 H2).
Defined.

(** X2. When a log is kept (a path is given and can be opened), its rows
    mirror the console: after the header, row [k] holds the timestamp and
    the three values of console line [k] of the session. *)
Theorem log_rows_mirror_console (n : Z) (fuel : nat) (junk : CPUStats.t)
    (env : environment) (interval : Z) (path : string) (w : world) :
  0 <= n <= Int.MAX -> (Z.to_nat n <= fuel)%nat ->
  path <> EmptyString -> writable env path = true ->
  exists lines,
    let w' := snd (session fuel junk env (mkOptions interval n path) w) in
    stdout w' = stdout w ++ lines /\
    files w' !! path = Some (csv_header :: map row_of_line lines).
Proof.
  intros Hn Hfuel Hpath Hw.
  destruct (session_trace n fuel junk env interval path w Hn Hfuel)
    as (m' & w' & -> & Hout & _ & _ & _ & Hlog).
  exists (map (session_line env (elapsed w)) (seq 0 (Z.to_nat n))).
  cbn [snd]. split; [exact Hout |].
  rewrite (Hlog Hpath Hw), map_map. reflexivity.
Qed.

Lemma log_rows_mirror_console_witness :
  0 <= 3 <= Int.MAX /\ (Z.to_nat 3 <= 3)%nat /\
  "log.csv"%string <> EmptyString /\ writable example_env "log.csv" = true /\
  exists lines,
    let w' := snd (session 3 CPUStats.zeroed example_env
                     (mkOptions 1 3 "log.csv") empty_world) in
    stdout w' = lines /\
    files w' !! "log.csv" = Some (csv_header :: map row_of_line lines).
Proof.
  assert (H1 : 0 <= 3 <= Int.MAX) by (unfold Int.MAX; lia).
  assert (H2 : (Z.to_nat 3 <= 3)%nat) by (cbn; lia).
  assert (H3 : "log.csv"%string <> EmptyString) by discriminate.
  split; [exact H1 |]. split; [exact H2 |]. split; [exact H3 |].
  split; [reflexivity |].
  exact (log_rows_mirror_console 3 3 CPUStats.zeroed example_env 1 "log.csv"
           empty_world H1 H2 H3 eq_refl).
Defined.



(** X4. The error stream of a counted session holds one line per sample
    whose disk query failed, in the order of the samples, and nothing
    else; it is left as it was when every query succeeds. *)
Theorem session_reports_each_disk_failure (n : Z) (fuel : nat)
    (junk : CPUStats.t) (env : environment) (interval : Z) (path : string)
    (w : world) :
  0 <= n <= Int.MAX -> (Z.to_nat n <= fuel)%nat ->
  let w' := snd (session fuel junk env (mkOptions interval n path) w) in
  stderr w'
  = stderr w ++
    flat_map (fun j => disk_complaint (sources_at env (elapsed w + j)))
      (seq 0 (Z.to_nat n)) /\
  ((forall j, (j < Z.to_nat n)%nat ->
      exists info, disk (sources_at env (elapsed w + j)) "/" = inr info) ->
   stderr w' = stderr w).
Proof.
  intros Hn Hfuel.
  destruct (session_trace n fuel junk env interval path w Hn Hfuel)
    as (m' & w' & -> & _ & Herr & _).
  cbn [snd]. split; [exact Herr |].
  intros Hok. rewrite Herr.
  rewrite flat_map_all_nil; [apply app_nil_r |].
  intros j Hj. apply in_seq in Hj.
  destruct (Hok j) as [info Hinfo]; [lia |].
  unfold disk_complaint. rewrite Hinfo. reflexivity.
Qed.

Lemma session_reports_each_disk_failure_witness :
  0 <= 2 <= Int.MAX /\ (Z.to_nat 2 <= 2)%nat /\
  stderr (snd (session 2 CPUStats.zeroed diskless_env
                 (mkOptions 1 2 EmptyString) empty_world))
  = ["Error getting disk space: No such file or directory";
     "Error getting disk space: No such file or directory"].
Proof.
  assert (H1 : 0 <= 2 <= Int.MAX) by (unfold Int.MAX; lia).
  assert (H2 : (Z.to_nat 2 <= 2)%nat) by (cbn; lia).
  split; [exact H1 |]. split; [exact H2 |].
  exact (proj1 (session_reports_each_disk_failure 2 2 CPUStats.zeroed
                  diskless_env 1 EmptyString empty_world H1 H2)).
Defined.

(** X5. After a counted session of n >= 1 samples the tracker holds, as
    its baseline, the reading of the last sample, and it is no longer in
    its cold-start state. *)
Theorem session_baseline_is_last_reading (n : Z) (fuel : nat)
    (junk : CPUStats.t) (env : environment) (interval : Z) (path : string)
    (w : world) :
  1 <= n <= Int.MAX -> (Z.to_nat n <= fuel)%nat ->
  exists m' w',
    session fuel junk env (mkOptions interval n path) w = (Finished m', w') /\
    prev_cpu_stats m' = reading_at env (elapsed w + Z.to_nat (n - 1)) /\
    first_cpu_reading m' = false.
Proof.
  intros Hn Hfuel.
  destruct (session_trace n fuel junk env interval path w) as
    (m' & w' & Hrun & _ & _ & _ & Hprev & _); [lia | exact Hfuel |].
  exists m', w'. split; [exact Hrun |].
  destruct Hprev as [Hp Hf]; [lia |].
  split; [| exact Hf]. rewrite Hp. do 2 f_equal. lia.
Qed.

Lemma session_baseline_is_last_reading_witness :
  1 <= 2 <= Int.MAX /\ (Z.to_nat 2 <= 2)%nat /\
  exists m' w',
    session 2 CPUStats.zeroed example_env (mkOptions 1 2 EmptyString)
      empty_world = (Finished m', w') /\
    prev_cpu_stats m' = example_R2.
Proof.
  assert (H1 : 1 <= 2 <= Int.MAX) by (unfold Int.MAX; lia).
  assert (H2 : (Z.to_nat 2 <= 2)%nat) by (cbn; lia).
  split; [exact H1 |]. split; [exact H2 |].
  destruct (session_baseline_is_last_reading 2 2 CPUStats.zeroed example_env 1
              EmptyString empty_world H1 H2) as (m' & w' & Hrun & Hp & _).
  exists m', w'. split; [exact Hrun |]. rewrite Hp. reflexivity.
Defined.

(** ** What [main] never does *)

(** Induction for a loop that consumes one or two arguments a turn. *)
Lemma list_ind_two {A : Type} (P : list A -> Prop) :
  P [] -> (forall a l, P l -> P (tl l) -> P (a :: l)) -> forall l, P l.
Proof.
  intros Hnil Hstep l.
  assert (H : P l /\ P (tl l)); [| exact (proj1 H)].
  induction l as [| a l [IH1 IH2]]; [split; exact Hnil |].
  split; [apply Hstep; assumption | exact IH1].
Qed.

(** The log file that the argument loop settles on is the one it started
    with or one of the arguments. *)
Lemma parse_args_log_file (args : list string) :
  forall o o',
    parse_args args o = Return (Some o') ->
    opt_log_file o' = opt_log_file o \/ In (opt_log_file o') args.
Proof.
  induction args as [| a l IH IHtl] using list_ind_two; intros o o' H.
  - inversion H. left. reflexivity.
  - cbn [parse_args] in H.
    destruct (is_flag a "-h" "--help"); [discriminate |].
    assert (Hskip : forall o1, parse_args l o1 = Return (Some o') ->
              opt_log_file o1 = opt_log_file o ->
              opt_log_file o' = opt_log_file o \/ In (opt_log_file o') (a :: l)).
    { intros o1 H1 E. destruct (IH _ _ H1) as [-> | Hin];
        [left; exact E | right; right; exact Hin]. }
    destruct (is_flag a "-i" "--interval").
    { destruct l as [| v l']; [eapply Hskip; eauto |].
      cbn [tl] in IHtl. destruct (stoi v); [| discriminate]. cbn [bind] in H.
      destruct (IHtl _ _ H) as [E | Hin];
        [left; exact E | right; right; right; exact Hin]. }
    destruct (is_flag a "-c" "--count").
    { destruct l as [| v l']; [eapply Hskip; eauto |].
      cbn [tl] in IHtl. destruct (stoi v); [| discriminate]. cbn [bind] in H.
      destruct (IHtl _ _ H) as [E | Hin];
        [left; exact E | right; right; right; exact Hin]. }
    destruct (is_flag a "-l" "--log").
    { destruct l as [| v l']; [eapply Hskip; eauto |].
      cbn [tl] in IHtl.
      destruct (IHtl _ _ H) as [E | Hin];
        [right; right; left; symmetry; exact E
        | right; right; right; exact Hin]. }
    eapply Hskip; eauto.
Qed.

(** The argument loop leaves through the help branch only when one of the
    arguments is a help flag. *)
Lemma parse_args_help (args : list string) :
  forall o, parse_args args o = Return None ->
            exists a, In a args /\ is_flag a "-h" "--help" = true.
Proof.
  induction args as [| a l IH IHtl] using list_ind_two; intros o H.
  - discriminate.
  - cbn [parse_args] in H.
    destruct (is_flag a "-h" "--help") eqn:Hh;
      [exists a; split; [left; reflexivity | exact Hh] |].
    assert (Hskip : forall o1, parse_args l o1 = Return None ->
              exists b, In b (a :: l) /\ is_flag b "-h" "--help" = true).
    { intros o1 H1. destruct (IH _ H1) as (b & Hb & Hf).
      exists b. split; [right; exact Hb | exact Hf]. }
    assert (Hskip2 : forall v l' o1, l = v :: l' ->
              parse_args l' o1 = Return None ->
              exists b, In b (a :: l) /\ is_flag b "-h" "--help" = true).
    { intros v l' o1 -> H1. cbn [tl] in IHtl.
      destruct (IHtl _ H1) as (b & Hb & Hf).
      exists b. split; [right; right; exact Hb | exact Hf]. }
    destruct (is_flag a "-i" "--interval").
    { destruct l as [| v l']; [eapply Hskip; eauto |].
      destruct (stoi v); [| discriminate]. cbn [bind] in H.
      eapply Hskip2; eauto. }
    destruct (is_flag a "-c" "--count").
    { destruct l as [| v l']; [eapply Hskip; eauto |].
      destruct (stoi v); [| discriminate]. cbn [bind] in H.
      eapply Hskip2; eauto. }
    destruct (is_flag a "-l" "--log").
    { destruct l as [| v l']; [eapply Hskip; eauto |].
      eapply Hskip2; eauto. }
    eapply Hskip; eauto.
Qed.

Lemma Forall_map_all {A B : Type} (P : B -> Prop) (f : A -> B) (l : list A) :
  (forall x, P (f x)) -> Forall P (map f l).
Proof.
  intros H. induction l as [| x l IH]; cbn [map]; constructor;
    [apply H | exact IH].
Qed.

(** A session changes no file but its log, and none without a log. *)
Lemma session_frame fuel junk env o w :
  let w' := snd (session fuel junk env o w) in
  (forall p, p <> opt_log_file o -> files w' !! p = files w !! p) /\
  (opt_log_file o = EmptyString -> files w' = files w) /\
  exists k : nat,
    (k <= fuel)%nat /\
    stdout w' = stdout w ++ map (session_line env (elapsed w)) (seq 0 k).
Proof.
  unfold session, monitor.
  pose proof (SystemMonitor_new_fresh junk env (opt_log_file o) w) as Hm0.
  pose proof (SystemMonitor_new_frame junk env (opt_log_file o) w) as Hfr0.
  destruct (SystemMonitor_new_world junk env (opt_log_file o) w)
    as [Hout0 Hel0].
  assert (Hno : opt_log_file o = EmptyString ->
                files (snd (SystemMonitor_new junk env (opt_log_file o) w))
                = files w) by (intros E; rewrite E; reflexivity).
  destruct (SystemMonitor_new junk env (opt_log_file o) w) as [m0 w0].
  cbn [fst snd] in *.
  destruct (monitor_loop_frame env (opt_interval o) (opt_count o) fuel 0 m0 w0)
    as (k & Hk & Hout & _ & Hframe & Hoff).
  subst m0. cbn [log_file log_to_file] in *.
  split; [| split].
  - intros p Hp. rewrite Hframe by exact Hp. apply Hfr0, Hp.
  - intros E. rewrite Hoff by (rewrite E; reflexivity). apply Hno, E.
  - exists k. split; [exact Hk |]. rewrite Hout, Hout0, Hel0.
    apply (f_equal (fun l => stdout w ++ l)).
    apply map_ext. intros j. apply loop_line_fresh.
Qed.

(** X6. Whatever the arguments, the fuel and the outcome, [main] changes
    no file whose path is not among its arguments: the only file it ever
    writes is the one named after a log option. *)
Theorem main_only_writes_log (fuel : nat) (junk : CPUStats.t)
    (env : environment) (argv : list string) (w : world) (p : string) :
  ~ In p (tl argv) ->
  files (snd (main fuel junk env argv w)) !! p = files w !! p.
Proof.
  intros Hp. unfold main.
  destruct (parse_args (tl argv) default_options) as [[o |] | e] eqn:Hargs;
    [| reflexivity | reflexivity].
  destruct (session_frame fuel junk env o w) as (Hframe & Hoff & _).
  assert (Hfiles : files (snd (session fuel junk env o w)) !! p = files w !! p).
  { destruct (parse_args_log_file _ _ _ Hargs) as [E | Hin].
    - rewrite Hoff by exact E. reflexivity.
    - apply Hframe. intros ->. contradiction. }
  destruct (session fuel junk env o w) as [[m' | e | ] w']; exact Hfiles.
Qed.

Lemma main_only_writes_log_witness :
  ~ In "/etc/passwd"%string
      (tl ["system_monitor"; "-c"; "2"; "-l"; "log.csv"]%string) /\
  files (snd (main 2 CPUStats.zeroed example_env
                ["system_monitor"; "-c"; "2"; "-l"; "log.csv"]
                (mkWorld [] [] {[ "/etc/passwd"%string := [Raw "root"] ]} [] 0)))
    !! "/etc/passwd"%string
  = Some [Raw "root"].
Proof.
  assert (H : ~ In "/etc/passwd"%string
                (tl ["system_monitor"; "-c"; "2"; "-l"; "log.csv"]%string)).
  { cbn. intros [H | [H | [H | [H | []]]]]; discriminate H. }
  split; [exact H |].
  rewrite (main_only_writes_log 2 CPUStats.zeroed example_env _ _ _ H).
  reflexivity.
Defined.

(** X7. Unless one of the arguments is [-h] or [--help], [main] prints
    nothing but sample lines on the console: the usage text never appears
    unasked, whatever the outcome of the run. *)
Theorem main_prints_only_samples (fuel : nat) (junk : CPUStats.t)
    (env : environment) (argv : list string) (w : world) :
  (forall a, In a (tl argv) -> is_flag a "-h" "--help" = false) ->
  exists lines,
    stdout (snd (main fuel junk env argv w)) = stdout w ++ lines /\
    Forall (fun l => is_sample l = true) lines.
Proof.
  intros Hnohelp. unfold main.
  destruct (parse_args (tl argv) default_options) as [[o |] | e] eqn:Hargs.
  - destruct (session_frame fuel junk env o w) as (_ & _ & k & _ & Hout).
    exists (map (session_line env (elapsed w)) (seq 0 k)).
    split.
    + destruct (session fuel junk env o w) as [[m' | e | ] w']; exact Hout.
    + apply Forall_map_all. intros j. reflexivity.
  - destruct (parse_args_help _ _ Hargs) as (a & Ha & Hf).
    rewrite (Hnohelp a Ha) in Hf. discriminate.
  - exists []. cbn [snd]. rewrite app_nil_r. split; [reflexivity | constructor].
Qed.

Lemma main_prints_only_samples_witness :
  (forall a, In a (tl ["system_monitor"; "-c"; "2"]%string) ->
             is_flag a "-h" "--help" = false) /\
  exists lines,
    stdout (snd (main 2 CPUStats.zeroed example_env
                   ["system_monitor"; "-c"; "2"] empty_world)) = lines /\
    Forall (fun l => is_sample l = true) lines.
Proof.
  assert (H : forall a, In a (tl ["system_monitor"; "-c"; "2"]%string) ->
                        is_flag a "-h" "--help" = false).
  { cbn. intros a [<- | [<- | []]]; reflexivity. }
  split; [exact H |].
  destruct (main_prints_only_samples 2 CPUStats.zeroed example_env
              ["system_monitor"; "-c"; "2"] empty_world H) as (lines & Ho & Hs).
  exists lines. split; [exact Ho | exact Hs].
Defined.

(** X8. [main] never returns 1: nothing throws inside its [try] block, so
    whenever the process returns an exit code, that code is 0. *)
Theorem main_never_returns_one (fuel : nat) (junk : CPUStats.t)
    (env : environment) (argv : list string) (w : world) :
  fst (main fuel junk env argv w) <> Exited 1 /\
  forall code, fst (main fuel junk env argv w) = Exited code -> code = 0.
Proof.
  assert (H : forall code,
             fst (main fuel junk env argv w) = Exited code -> code = 0).
  { unfold main.
    destruct (parse_args (tl argv) default_options) as [[o |] | e];
      cbn [fst]; try congruence.
    unfold session. destruct (SystemMonitor_new _ _ _ _) as [m0 w0].
    unfold monitor. intros code.
    pose proof (monitor_loop_never_throws env (opt_interval o) (opt_count o)
                  fuel 0 m0 w0) as Hno.
    destruct (monitor_loop _ _ _ _ _ _ _) as [[m' | e | ] w'];
      cbn [fst] in *; try congruence.
    exfalso. exact (Hno e eq_refl). }
  split; [| exact H]. intros E. apply H in E. discriminate.
Qed.


(** ** Reading numbers *)

Lemma string_app_cons (c : ascii) (s t : string) :
  (String c s ++ t)%string = String c (s ++ t)%string.
Proof. reflexivity. Qed.

Lemma scan_digits_end (s : string) (acc : Z) (seen : bool) :
  ends_number s = true -> IStream.scan_digits s acc seen = (acc, seen, s).
Proof.
  destruct s as [| c r]; [reflexivity |]. cbn [ends_number IStream.scan_digits].
  destruct (IStream.digit_of c); [discriminate | reflexivity].
Qed.

Lemma acc_step (p k : positive) : 10 * Z.pos p + Z.pos k = Z.pos (k + 10 * p).
Proof. lia. Qed.

Lemma acc_step_0 (p : positive) : 10 * Z.pos p + 0 = Z.pos (10 * p).
Proof. lia. Qed.

(** One digit read. *)
Ltac scan_digit :=
  rewrite string_app_cons; cbn [IStream.scan_digits];
  match goal with
  | |- context [IStream.digit_of ?c] =>
      let v := eval vm_compute in (IStream.digit_of c) in
      change (IStream.digit_of c) with v
  end;
  cbv iota.

(** The digits of a number in decimal notation, read onto a positive
    accumulator. *)
Lemma scan_digits_uint_acc (tail : string) :
  ends_number tail = true ->
  forall (d : uint) (p : positive) (seen : bool),
    IStream.scan_digits (NilEmpty.string_of_uint d ++ tail) (Z.pos p) seen
    = (Z.pos (Pos.of_uint_acc d p),
       match d with Nil => seen | _ => true end, tail).
Proof.
  intros Htail. induction d as [| d IH | d IH | d IH | d IH | d IH | d IH
                                | d IH | d IH | d IH | d IH]; intros p seen;
    cbn [NilEmpty.string_of_uint Pos.of_uint_acc].
  1: { apply scan_digits_end, Htail. }
  all: scan_digit; rewrite ?acc_step, ?acc_step_0; rewrite IH;
    destruct d; reflexivity.
Qed.

(** The same from 0: leading zeros leave the accumulator at 0. *)
Lemma scan_digits_uint (tail : string) :
  ends_number tail = true ->
  forall (d : uint) (seen : bool),
    IStream.scan_digits (NilEmpty.string_of_uint d ++ tail) 0 seen
    = (Z.of_N (Pos.of_uint d),
       match d with Nil => seen | _ => true end, tail).
Proof.
  intros Htail. induction d as [| d IH | d IH | d IH | d IH | d IH | d IH
                                | d IH | d IH | d IH | d IH]; intros seen;
    cbn [NilEmpty.string_of_uint Pos.of_uint].
  1: { apply scan_digits_end, Htail. }
  1: { scan_digit. change (10 * 0 + 0) with 0. rewrite IH.
       destruct d; reflexivity. }
  all: scan_digit;
    match goal with
    | |- context [IStream.scan_digits _ ?a true] =>
        let v := eval vm_compute in a in change a with v
    end;
    rewrite (scan_digits_uint_acc tail Htail); destruct d; reflexivity.
Qed.

(** The notation of a number starts with a digit. *)
Lemma decimal_head (n : N) :
  exists c s, decimal n = String c s /\
              exists v, IStream.digit_of c = Some v.
Proof.
  unfold decimal.
  assert (H : N.to_uint n <> Nil).
  { destruct n as [| p]; [discriminate |]. apply Unsigned.to_uint_nonnil. }
  destruct (N.to_uint n); [contradiction | ..];
    cbn [NilEmpty.string_of_uint]; do 2 eexists; (split; [reflexivity |]);
    eexists; vm_compute; reflexivity.
Qed.

(** Reading back a number written in decimal notation. *)
Lemma scan_digits_decimal (n : N) (tail : string) :
  ends_number tail = true ->
  IStream.scan_digits (decimal n ++ tail) 0 false = (Z.of_N n, true, tail).
Proof.
  intros Htail. unfold decimal. rewrite (scan_digits_uint tail Htail).
  change (Pos.of_uint (N.to_uint n)) with (N.of_uint (N.to_uint n)).
  rewrite DecimalN.Unsigned.of_to.
  assert (H : N.to_uint n <> Nil).
  { destruct n as [| p]; [discriminate |]. apply Unsigned.to_uint_nonnil. }
  destruct (N.to_uint n); [contradiction | ..]; reflexivity.
Qed.

Lemma digit_is_no_sign (c : ascii) (v : Z) (s : string) :
  IStream.digit_of c = Some v ->
  match String c s with
  | String "-" r => (true, r)
  | String "+" r => (false, r)
  | _ => (false, String c s)
  end = (false, String c s).
Proof.
  intros Hv.
  destruct c as [[|] [|] [|] [|] [|] [|] [|] [|]];
    try reflexivity; vm_compute in Hv; discriminate.
Qed.

Lemma digit_is_no_space (c : ascii) (v : Z) :
  IStream.digit_of c = Some v -> IStream.isspace c = false.
Proof.
  intros Hv.
  destruct c as [[|] [|] [|] [|] [|] [|] [|] [|]];
    try reflexivity; vm_compute in Hv; discriminate.
Qed.

Lemma scan_integer_decimal (n : N) (tail : string) :
  ends_number tail = true ->
  IStream.scan_integer (decimal n ++ tail) = (Some (Z.of_N n), tail).
Proof.
  intros Htail. unfold IStream.scan_integer.
  pose proof (scan_digits_decimal n tail Htail) as Hbody.
  destruct (decimal_head n) as (c & s & Hd & v & Hv).
  rewrite Hd in *. rewrite string_app_cons in *.
  rewrite (digit_is_no_sign c v _ Hv), Hbody. reflexivity.
Qed.

Lemma scan_integer_decimal_Z (z : Z) (tail : string) :
  ends_number tail = true ->
  IStream.scan_integer (decimal_Z z ++ tail) = (Some z, tail).
Proof.
  intros Htail. destruct z as [| p | p]; cbn [decimal_Z].
  - apply (scan_integer_decimal 0 tail Htail).
  - apply (scan_integer_decimal (N.pos p) tail Htail).
  - rewrite string_app_cons. unfold IStream.scan_integer.
    rewrite (scan_digits_decimal (N.pos p) tail Htail). reflexivity.
Qed.

(** White space before a token is skipped, and nothing more. *)
Lemma skipws_app (ws s : string) :
  all_space ws = true ->
  match s with
  | EmptyString => True
  | String c _ => IStream.isspace c = false
  end ->
  IStream.skipws (ws ++ s) = s.
Proof.
  intros Hws Hs. induction ws as [| c ws IH].
  - destruct s as [| c r]; [reflexivity |].
    change (EmptyString ++ String c r)%string with (String c r).
    cbn [IStream.skipws]. rewrite Hs. reflexivity.
  - cbn [all_space] in Hws. apply andb_prop in Hws. destruct Hws as [Hc Hws].
    rewrite string_app_cons. cbn [IStream.skipws]. rewrite Hc. apply IH, Hws.
Qed.

Lemma decimal_Z_head (z : Z) :
  exists c s, decimal_Z z = String c s /\ IStream.isspace c = false.
Proof.
  destruct z as [| p | p]; cbn [decimal_Z].
  - destruct (decimal_head 0) as (c & s & Hd & v & Hv).
    exists c, s. split; [exact Hd | exact (digit_is_no_space c v Hv)].
  - destruct (decimal_head (N.pos p)) as (c & s & Hd & v & Hv).
    exists c, s. split; [exact Hd | exact (digit_is_no_space c v Hv)].
  - do 2 eexists. split; reflexivity.
Qed.


(** ** The values of the command line *)

Lemma stoi_range (s : string) (v : Z) : stoi s = Return v -> Int.in_range v.
Proof.
  unfold stoi. destruct (IStream.scan_integer _) as [[x |] r]; [| discriminate].
  destruct (Z.ltb_spec x Int.MIN); [discriminate |].
  destruct (Z.ltb_spec Int.MAX x); [discriminate |].
  cbn [orb]. intros [= <-]. split; lia.
Qed.

(** X9. [std::stoi] reads back every [int] written in decimal notation,
    with or without a minus sign, whatever white space comes before it and
    whatever text that does not start with a digit comes after it: the
    text after the number is ignored. *)
Theorem stoi_reads_decimal (ws : string) (z : Z) (tail : string) :
  all_space ws = true -> ends_number tail = true ->
  Int.MIN <= z <= Int.MAX ->
  stoi (ws ++ decimal_Z z ++ tail) = Return z.
Proof.
  intros Hws Htail Hz. unfold stoi.
  destruct (decimal_Z_head z) as (c & s & Hd & Hc).
  rewrite skipws_app; [| exact Hws | rewrite Hd, string_app_cons; exact Hc].
  rewrite scan_integer_decimal_Z by exact Htail.
  destruct (Z.ltb_spec z Int.MIN); [lia |].
  destruct (Z.ltb_spec Int.MAX z); [lia | reflexivity].
Qed.

Lemma stoi_reads_decimal_witness :
  all_space "  " = true /\ ends_number "abc" = true /\
  Int.MIN <= -12 <= Int.MAX /\ stoi "  -12abc" = Return (-12).
Proof.
  assert (H : Int.MIN <= -12 <= Int.MAX) by (unfold Int.MIN, Int.MAX; lia).
  split; [reflexivity |]. split; [reflexivity |]. split; [exact H |].
  exact (stoi_reads_decimal "  " (-12) "abc" eq_refl eq_refl H).
Defined.

(** X10. The interval and the count that the argument loop settles on are
    always values of an [int]: whatever the arguments, when the loop ends
    without throwing and without asking for help, both lie between
    INT_MIN and INT_MAX. *)
Theorem parse_args_int_range (args : list string) (o : options) :
  parse_args args default_options = Return (Some o) ->
  Int.in_range (opt_interval o) /\ Int.in_range (opt_count o).
Proof.
  assert (Hgen : forall args o0 o',
            Int.in_range (opt_interval o0) /\ Int.in_range (opt_count o0) ->
            parse_args args o0 = Return (Some o') ->
            Int.in_range (opt_interval o') /\ Int.in_range (opt_count o')).
  { clear. induction args as [| a l IH IHtl] using list_ind_two;
      intros o0 o' Hin H.
    - inversion H. subst. exact Hin.
    - cbn [parse_args] in H.
      destruct (is_flag a "-h" "--help"); [discriminate |].
      destruct (is_flag a "-i" "--interval").
      { destruct l as [| v l']; [eapply IH; eauto |]. cbn [tl] in IHtl.
        destruct (stoi v) as [n |] eqn:Hv; [| discriminate]. cbn [bind] in H.
        eapply IHtl; [| exact H]. cbn [opt_interval opt_count].
        split; [exact (stoi_range v n Hv) | exact (proj2 Hin)]. }
      destruct (is_flag a "-c" "--count").
      { destruct l as [| v l']; [eapply IH; eauto |]. cbn [tl] in IHtl.
        destruct (stoi v) as [n |] eqn:Hv; [| discriminate]. cbn [bind] in H.
        eapply IHtl; [| exact H]. cbn [opt_interval opt_count].
        split; [exact (proj1 Hin) | exact (stoi_range v n Hv)]. }
      destruct (is_flag a "-l" "--log").
      { destruct l as [| v l']; [eapply IH; eauto |]. cbn [tl] in IHtl.
        eapply IHtl; [| exact H]. exact Hin. }
      eapply IH; eauto. }
  apply Hgen. cbn [default_options opt_interval opt_count].
  unfold Int.in_range, Int.MIN, Int.MAX. split; lia.
Qed.

Lemma parse_args_int_range_witness :
  parse_args ["-i"; "5"; "--count"; "7"]%string default_options
  = Return (Some (mkOptions 5 7 EmptyString)) /\
  Int.in_range 5 /\ Int.in_range 7.
Proof.
  split; [reflexivity |].
  exact (parse_args_int_range ["-i"; "5"; "--count"; "7"]%string
           (mkOptions 5 7 EmptyString) eq_refl).
Defined.

(** X11. The command line is read back: an interval option, a count option
    and a log option, in their short or long spelling, each followed by
    its value (the numbers in decimal notation, the path any string at all),
    set exactly these three values. *)
Theorem parse_args_reads_options (fi fc fl : string) (i c : Z)
    (path : string) (o : options) :
  fi = "-i"%string \/ fi = "--interval"%string ->
  fc = "-c"%string \/ fc = "--count"%string ->
  fl = "-l"%string \/ fl = "--log"%string ->
  Int.MIN <= i <= Int.MAX -> Int.MIN <= c <= Int.MAX ->
  parse_args [fi; decimal_Z i; fc; decimal_Z c; fl; path] o
  = Return (Some (mkOptions i c path)).
Proof.
  intros Hfi Hfc Hfl Hi Hc.
  pose proof (stoi_reads_decimal EmptyString i EmptyString eq_refl eq_refl Hi)
    as Si.
  pose proof (stoi_reads_decimal EmptyString c EmptyString eq_refl eq_refl Hc)
    as Sc.
  rewrite string_app_nil_r in Si, Sc.
  change (EmptyString ++ decimal_Z i)%string with (decimal_Z i) in Si.
  change (EmptyString ++ decimal_Z c)%string with (decimal_Z c) in Sc.
  destruct Hfi as [-> | ->], Hfc as [-> | ->], Hfl as [-> | ->];
    cbn [parse_args is_flag String.eqb Ascii.eqb Bool.eqb orb andb bind];
    rewrite Si; cbn [bind]; rewrite Sc; reflexivity.
Qed.

Lemma parse_args_reads_options_witness :
  ("-i" = "-i" \/ "-i" = "--interval")%string /\
  ("--count" = "-c" \/ "--count" = "--count")%string /\
  ("-l" = "-l" \/ "-l" = "--log")%string /\
  Int.MIN <= 2 <= Int.MAX /\ Int.MIN <= 10 <= Int.MAX /\
  parse_args ["-i"; "2"; "--count"; "10"; "-l"; "-h"]%string default_options
  = Return (Some (mkOptions 2 10 "-h")).
Proof.
  assert (H1 : Int.MIN <= 2 <= Int.MAX) by (unfold Int.MIN, Int.MAX; lia).
  assert (H2 : Int.MIN <= 10 <= Int.MAX) by (unfold Int.MIN, Int.MAX; lia).
  split; [left; reflexivity |]. split; [right; reflexivity |].
  split; [left; reflexivity |]. split; [exact H1 |]. split; [exact H2 |].
  exact (parse_args_reads_options "-i" "--count" "-l" 2 10 "-h"
           default_options (or_introl eq_refl) (or_intror eq_refl)
           (or_introl eq_refl) H1 H2).
Defined.

(** ** The readers deliver values of a [long] *)

Lemma extract_long_range (inp inp' : IStream.t) (v : Z) :
  IStream.extract_long inp = (inp', Some v) -> Long.in_range v.
Proof.
  unfold IStream.extract_long.
  destruct (IStream.failbit inp); [discriminate |].
  destruct (IStream.skipws (IStream.buf inp)) as [| c r]; [discriminate |].
  destruct (IStream.scan_integer (String c r)) as [[x |] rest].
  - destruct (Z.ltb_spec Long.MAX x).
    { intros [= <- <-]. unfold Long.in_range, Long.MIN, Long.MAX. lia. }
    destruct (Z.ltb_spec x Long.MIN).
    { intros [= <- <-]. unfold Long.in_range, Long.MIN, Long.MAX. lia. }
    intros [= <- <-]. unfold Long.in_range. lia.
  - intros [= <- <-]. unfold Long.in_range, Long.MIN, Long.MAX. lia.
Qed.

Lemma read_long_range (inp : IStream.t) (old : Z) :
  Long.in_range old -> Long.in_range (snd (IStream.read_long inp old)).
Proof.
  intros Hold. unfold IStream.read_long.
  destruct (IStream.extract_long inp) as [inp' [v |]] eqn:E; cbn [snd default].
  - exact (extract_long_range _ _ _ E).
  - exact Hold.
Qed.

Lemma zero_in_range : Long.in_range 0.
Proof. unfold Long.in_range, Long.MIN, Long.MAX. lia. Qed.

Ltac fits := repeat first [assumption | apply zero_in_range | split].

(** X12. Whatever [/proc/stat] holds, and whether or not it can be opened,
    every counter of the reading that [get_cpu_stats] returns is a value
    of a [long]: a number too large is cut to the nearest bound. *)
Theorem get_cpu_stats_fits (src : option string) : cpu_fits (get_cpu_stats src).
Proof.
  unfold get_cpu_stats.
  destruct (IStream.getline (IStream.open src)) as [inp [line |]];
    [| unfold cpu_fits; cbn; fits].
  set (i0 := fst (IStream.read_string (IStream.of_string line) EmptyString)).
  destruct (IStream.read_string (IStream.of_string line) EmptyString)
    as [i0' label]. cbn [fst] in i0. subst i0.
  cbn [CPUStats.zeroed CPUStats.user CPUStats.nice CPUStats.system
       CPUStats.idle CPUStats.iowait CPUStats.irq CPUStats.softirq
       CPUStats.steal].
  repeat match goal with
  | |- context [IStream.read_long ?i 0] =>
      let H := fresh "H" in
      pose proof (read_long_range i 0 zero_in_range) as H;
      destruct (IStream.read_long i 0); cbn [snd] in H
  end.
  unfold cpu_fits.
  cbn [CPUStats.user CPUStats.nice CPUStats.system CPUStats.idle
       CPUStats.iowait CPUStats.irq CPUStats.softirq CPUStats.steal].
  fits.
Qed.

Lemma memory_line_fits (j : Z) (stats : MemoryStats.t) (line : string) :
  Long.in_range j -> memory_fits stats -> memory_fits (memory_line j stats line).
Proof.
  intros Hj (Ht & Hf & Ha & Hb & Hc). unfold memory_line.
  destruct (IStream.read_string (IStream.of_string line) EmptyString)
    as [i1 key].
  pose proof (read_long_range i1 j Hj) as Hv.
  destruct (IStream.read_long i1 j) as [i2 value]. cbn [snd] in Hv.
  destruct (IStream.read_string i2 EmptyString) as [i3 unit].
  destruct stats as [t f a b c].
  cbn [MemoryStats.total MemoryStats.free MemoryStats.available
       MemoryStats.buffers MemoryStats.cached] in *.
  repeat match goal with
         | |- context [String.eqb key ?k] => destruct (String.eqb key k)
         end;
    unfold memory_fits;
    cbn [MemoryStats.total MemoryStats.free MemoryStats.available
         MemoryStats.buffers MemoryStats.cached];
    fits.
Qed.

(** X13. Whatever [/proc/meminfo] holds, and whether or not it can be
    opened, the five fields that [get_memory_stats] returns are values of a
    [long], as soon as the value that the unassigned local holds is one. *)
Theorem get_memory_stats_fits (j : Z) (src : option string) :
  Long.in_range j -> memory_fits (get_memory_stats j src).
Proof.
  intros Hj. unfold get_memory_stats.
  assert (H0 : memory_fits MemoryStats.zeroed)
    by (unfold memory_fits; cbn; fits).
  revert H0. generalize MemoryStats.zeroed.
  induction (IStream.getlines (IStream.open src)) as [| l ls IH];
    intros stats Hs; cbn [fold_left]; [exact Hs |].
  apply IH, memory_line_fits; assumption.
Qed.

Lemma get_memory_stats_fits_witness :
  Long.in_range 0 /\
  memory_fits
    (get_memory_stats 0 (Some "MemTotal: 99999999999999999999999 kB")) /\
  MemoryStats.total
    (get_memory_stats 0 (Some "MemTotal: 99999999999999999999999 kB"))
  = Long.MAX.
Proof.
  split; [exact zero_in_range |].
  split; [exact (get_memory_stats_fits 0 _ zero_in_range) | reflexivity].
Defined.

(** ** Reading a line of fields *)

Lemma read_long_failed (old : Z) :
  IStream.read_long IStream.failed old = (IStream.failed, old).
Proof. reflexivity. Qed.


Lemma blank_is_space (c : ascii) : is_blank c = true -> IStream.isspace c = true.
Proof.
  unfold is_blank, IStream.isspace. intros H.
  apply orb_prop in H. destruct H as [H | H]; apply N.eqb_eq in H; rewrite H;
    reflexivity.
Qed.


Lemma all_blank_all_space (s : string) : all_blank s = true -> all_space s = true.
Proof.
  induction s as [| c s IH]; [reflexivity |]. cbn [all_blank all_space].
  intros H. apply andb_prop in H. destruct H as [Hc Hs].
  rewrite (blank_is_space c Hc), (IH Hs). reflexivity.
Qed.





Lemma read_longs_failed (k : nat) :
  read_longs k IStream.failed = repeat 0 k.
Proof.
  induction k as [| k IH]; [reflexivity |].
  cbn [read_longs repeat]. rewrite read_long_failed, IH. reflexivity.
Qed.



(** [get_cpu_stats] is eight extractions on the first line, after its
    label. *)
Lemma get_cpu_stats_line (src : option string) (inp iss : IStream.t)
    (line label : string) :
  IStream.getline (IStream.open src) = (inp, Some line) ->
  IStream.read_string (IStream.of_string line) EmptyString = (iss, label) ->
  get_cpu_stats src
  = let l := read_longs 8 iss in
    CPUStats.mk (nth 0 l 0) (nth 1 l 0) (nth 2 l 0) (nth 3 l 0) (nth 4 l 0)
      (nth 5 l 0) (nth 6 l 0) (nth 7 l 0).
Proof.
  intros Hg Hr. unfold get_cpu_stats. rewrite Hg, Hr.
  cbn [CPUStats.zeroed CPUStats.user CPUStats.nice CPUStats.system
       CPUStats.idle CPUStats.iowait CPUStats.irq CPUStats.softirq
       CPUStats.steal read_longs].
  repeat match goal with
         | |- context [IStream.read_long ?i 0] =>
             destruct (IStream.read_long i 0)
         end.
  reflexivity.
Qed.




Lemma all_blank_no_newline (s : string) :
  all_blank s = true -> no_newline s = true.
Proof.
  induction s as [| c s IH]; [reflexivity |]. cbn [all_blank no_newline].
  intros H. apply andb_prop in H. destruct H as [Hc Hs]. rewrite (IH Hs).
  unfold is_blank in Hc. unfold IStream.is_newline.
  apply orb_prop in Hc. destruct Hc as [Hc | Hc]; apply N.eqb_eq in Hc;
    rewrite Hc; reflexivity.
Qed.



Lemma cut_line_whole (l : string) :
  no_newline l = true -> IStream.cut_line l = (l, EmptyString).
Proof.
  induction l as [| c l IH]; [reflexivity |]. cbn [no_newline IStream.cut_line].
  intros H. apply andb_prop in H. destruct H as [Hc Hl].
  apply negb_true_iff in Hc. rewrite Hc, (IH Hl). reflexivity.
Qed.

Lemma cut_line_app (l rest : string) :
  no_newline l = true ->
  IStream.cut_line (l ++ String newline rest) = (l, rest).
Proof.
  induction l as [| c l IH]; [reflexivity |]. rewrite string_app_cons.
  cbn [no_newline IStream.cut_line].
  intros H. apply andb_prop in H. destruct H as [Hc Hl].
  apply negb_true_iff in Hc. rewrite Hc, (IH Hl). reflexivity.
Qed.

(** [std::getline] on a file that holds a first line. *)
Lemma getline_only_line (l : string) :
  no_newline l = true -> l <> EmptyString ->
  IStream.getline (IStream.open (Some l))
  = (IStream.mk EmptyString false, Some l).
Proof.
  intros Hl Hne. pose proof (cut_line_whole l Hl) as Hc.
  destruct l as [| c l']; [contradiction |].
  unfold IStream.open, IStream.getline. cbn [IStream.failbit IStream.buf].
  rewrite Hc. reflexivity.
Qed.

Lemma getline_first_line (l rest : string) :
  no_newline l = true ->
  IStream.getline (IStream.open (Some (l ++ String newline rest)%string))
  = (IStream.mk rest false, Some l).
Proof.
  intros Hl. pose proof (cut_line_app l rest Hl) as Hc.
  unfold IStream.open, IStream.getline. cbn [IStream.failbit IStream.buf].
  destruct l as [| c l'].
  - change (EmptyString ++ String newline rest)%string
      with (String newline rest) in *. cbv beta iota. rewrite Hc.
    reflexivity.
  - rewrite string_app_cons in *. cbv beta iota. rewrite Hc. reflexivity.
Qed.






(** ** Reading [/proc/meminfo] *)












(** ** Doubles: what is never NaN *)

(** The iteration of SpecFloat, as the one of the standard library. *)
Lemma iter_pos_nat {A : Type} (f : A -> A) (p : positive) (x : A) :
  SpecFloat.iter_pos f p x = Nat.iter (Pos.to_nat p) f x.
Proof.
  unfold Nat.iter. rewrite <- Pos2Nat.inj_iter. revert x.
  induction p as [p IH | p IH |]; intros x; cbn [SpecFloat.iter_pos Pos.iter].
  - rewrite !IH. rewrite <- !Pos.iter_swap. reflexivity.
  - rewrite !IH. reflexivity.
  - reflexivity.
Qed.

(** Shifting right keeps a mantissa that is not negative so. *)
Lemma shr_1_nonneg (mrs : shr_record) : 0 <= shr_m mrs -> 0 <= shr_m (shr_1 mrs).
Proof.
  destruct mrs as [m r s]. cbn [shr_m]. intros H.
  destruct m as [| [p | p |] | p]; cbn; lia.
Qed.

Lemma shr_nonneg (mrs : shr_record) (e n : Z) :
  0 <= shr_m mrs -> 0 <= shr_m (fst (shr mrs e n)).
Proof.
  intros H. unfold shr. destruct n as [| p | p]; cbn [fst]; try exact H.
  rewrite iter_pos_nat. induction (Pos.to_nat p) as [| k IH]; [exact H |].
  cbn [Nat.iter]. apply shr_1_nonneg, IH.
Qed.

Lemma shr_record_of_loc_m (m : Z) (l : location) :
  shr_m (shr_record_of_loc m l) = m.
Proof. destruct l as [| []]; reflexivity. Qed.

Lemma round_nearest_even_nonneg (m : Z) (l : location) :
  0 <= m -> 0 <= round_nearest_even m l.
Proof.
  intros H. unfold round_nearest_even.
  destruct l as [| []]; [| destruct (Z.even m) | |]; lia.
Qed.

(** Rounding a mantissa that is not negative never gives NaN. *)
Lemma binary_round_aux_no_nan (s : bool) (m e : Z) (l : location) :
  0 <= m ->
  Double.is_nan (binary_round_aux Double.prec Double.emax s m e l) = false.
Proof.
  intros Hm. unfold binary_round_aux, shr_fexp.
  pose proof (shr_nonneg (shr_record_of_loc m l) e
                (fexp Double.prec Double.emax (Zdigits2 m + e) - e)) as H1.
  rewrite shr_record_of_loc_m in H1. specialize (H1 Hm).
  destruct (shr (shr_record_of_loc m l) e _) as [mrs' e']. cbn [fst] in H1.
  set (m1 := round_nearest_even (shr_m mrs') (loc_of_shr_record mrs')).
  assert (Hm1 : 0 <= m1) by (apply round_nearest_even_nonneg, H1).
  pose proof (shr_nonneg (shr_record_of_loc m1 loc_Exact) e'
                (fexp Double.prec Double.emax (Zdigits2 m1 + e') - e')) as H2.
  rewrite shr_record_of_loc_m in H2. specialize (H2 Hm1).
  destruct (shr (shr_record_of_loc m1 loc_Exact) e' _) as [mrs'' e''].
  cbn [fst] in H2.
  destruct (shr_m mrs'') as [| p | p]; [reflexivity | | lia].
  destruct (e'' <=? _); reflexivity.
Qed.

Lemma binary_round_no_nan (s : bool) (m : positive) (e : Z) :
  Double.is_nan (binary_round Double.prec Double.emax s m e) = false.
Proof.
  unfold binary_round. destruct (shl_align m e _) as [mz ez].
  apply binary_round_aux_no_nan. lia.
Qed.

Lemma binary_normalize_no_nan (m e : Z) (s : bool) :
  Double.is_nan (binary_normalize Double.prec Double.emax m e s) = false.
Proof.
  destruct m; cbn [binary_normalize]; [reflexivity | |];
    apply binary_round_no_nan.
Qed.

(** A product with a finite factor that is not zero is NaN only when the
    other factor is. *)
Lemma mul_hundred_no_nan (x : Double.t) :
  Double.is_nan x = false -> Double.is_nan (Double.hundred * x)%D = false.
Proof.
  intros Hx. unfold Double.mul, Double.hundred.
  destruct x as [s | s | | s m e]; try reflexivity; try discriminate.
  cbn [SFmul]. apply binary_round_aux_no_nan. lia.
Qed.

Lemma one_sub_no_nan (x : Double.t) :
  Double.is_nan x = false -> Double.is_nan (Double.one - x)%D = false.
Proof.
  intros Hx. unfold Double.sub, Double.one.
  destruct x as [s | s | | s m e]; try reflexivity; try discriminate.
  cbn [SFsub]. apply binary_normalize_no_nan.
Qed.

(** A quotient of two doubles that are zero or finite is NaN only when
    both are zero. *)
Lemma div_no_nan (x y : Double.t) :
  is_real x = true -> is_real y = true ->
  is_zero x && is_zero y = false ->
  Double.is_nan (x / y)%D = false.
Proof.
  intros Hx Hy Hz. unfold Double.div.
  destruct x as [sx | sx | | sx mx ex]; try discriminate;
    destruct y as [sy | sy | | sy my ey]; try discriminate; try reflexivity.
  cbn [SFdiv]. unfold SFdiv_core_binary.
  set (m' := match _ with Z0 => Z.pos mx | Zpos _ => _ | Zneg _ => 0 end).
  assert (Hm' : 0 <= m').
  { unfold m'. destruct (_ - _ - _) as [| p | p]; try lia.
    rewrite Z.shiftl_mul_pow2 by lia. apply Z.mul_nonneg_nonneg; [lia |].
    apply Z.pow_nonneg. lia. }
  pose proof (Z.div_pos m' (Z.pos my) Hm' ltac:(lia)) as Hq.
  unfold Z.div in Hq. destruct (Z.div_eucl m' (Z.pos my)) as [q r].
  apply binary_round_aux_no_nan. exact Hq.
Qed.

(** *** The conversion of an integer is exact in kind *)

Lemma digits2_xO_iter (p k : positive) :
  Z.pos (digits2_pos (Pos.iter xO p k))
  = Z.pos (digits2_pos p) + Z.pos k.
Proof.
  induction k as [| k IH] using Pos.peano_ind.
  - cbn [Pos.iter digits2_pos]. lia.
  - rewrite Pos.iter_succ. cbn [digits2_pos]. lia.
Qed.

(** One shift to the right of a mantissa of two digits or more. *)
Lemma shr_1_digits (p : positive) (r s : bool) :
  1 < Z.pos (digits2_pos p) ->
  exists q r' s',
    shr_1 (Build_shr_record (Z.pos p) r s) = Build_shr_record (Z.pos q) r' s' /\
    Z.pos (digits2_pos q) = Z.pos (digits2_pos p) - 1.
Proof.
  intros H. destruct p as [q | q |]; cbn [digits2_pos] in *; [| | lia].
  - exists q, true, (r || s). split; [reflexivity | lia].
  - exists q, false, (r || s). split; [reflexivity | lia].
Qed.

Lemma shr_iter_digits (k : nat) :
  forall (p : positive) (r s : bool),
    Z.of_nat k < Z.pos (digits2_pos p) ->
    exists q r' s',
      Nat.iter k shr_1 (Build_shr_record (Z.pos p) r s)
      = Build_shr_record (Z.pos q) r' s' /\
      Z.pos (digits2_pos q) = Z.pos (digits2_pos p) - Z.of_nat k.
Proof.
  induction k as [| k IH]; intros p r s Hk.
  - exists p, r, s. split; [reflexivity | lia].
  - destruct (IH p r s) as (q & r' & s' & E & Hq); [lia |].
    change (Nat.iter (S k) shr_1 (Build_shr_record (Z.pos p) r s))
      with (shr_1 (Nat.iter k shr_1 (Build_shr_record (Z.pos p) r s))).
    rewrite E.
    destruct (shr_1_digits q r' s') as (q1 & r1 & s1 & E1 & Hq1); [lia |].
    exists q1, r1, s1. split; [exact E1 | lia].
Qed.

Lemma digits2_succ (q : positive) :
  Z.pos (digits2_pos (Pos.succ q)) <= Z.pos (digits2_pos q) + 1.
Proof.
  induction q as [q IH | q IH |].
  - change (Pos.succ q~1) with ((Pos.succ q)~0)%positive.
    cbn [digits2_pos]. lia.
  - change (Pos.succ q~0) with (q~1)%positive. cbn [digits2_pos]. lia.
  - change (Pos.succ 1) with 2%positive. cbn [digits2_pos]. lia.
Qed.

Lemma round_nearest_even_pos (q : positive) (l : location) :
  exists q2, round_nearest_even (Z.pos q) l = Z.pos q2 /\
             Z.pos (digits2_pos q2) <= Z.pos (digits2_pos q) + 1.
Proof.
  assert (Hs : Z.pos q + 1 = Z.pos (Pos.succ q)) by lia.
  pose proof (digits2_succ q) as Hd.
  unfold round_nearest_even.
  destruct l as [| []]; [| destruct (Z.even (Z.pos q)) | |];
    rewrite ?Hs; eexists; (split; [reflexivity | lia]).
Qed.

(** The first step of a rounding in binary64: a mantissa of more than 53
    digits is shifted down to 53 digits, another one is left as it is. *)
Lemma shr_fexp_pos (p : positive) (e : Z) (l : location) :
  -1074 <= e ->
  exists q r s,
    shr_fexp Double.prec Double.emax (Z.pos p) e l
    = (Build_shr_record (Z.pos q) r s,
       e + Z.max 0 (Z.pos (digits2_pos p) - 53)) /\
    Z.pos (digits2_pos q) = Z.min (Z.pos (digits2_pos p)) 53.
Proof.
  intros He. unfold shr_fexp, shr, fexp, emin, Double.prec, Double.emax.
  cbn [Zdigits2]. set (d := Z.pos (digits2_pos p)).
  assert (Hrec : exists r s, shr_record_of_loc (Z.pos p) l
                             = Build_shr_record (Z.pos p) r s)
    by (destruct l as [| []]; do 2 eexists; reflexivity).
  destruct Hrec as (r0 & s0 & ->).
  destruct (Z.max (d + e - 53) (3 - 1024 - 53) - e) as [| k | k] eqn:En.
  - exists p, r0, s0. split; [f_equal; lia | lia].
  - rewrite iter_pos_nat.
    destruct (shr_iter_digits (Pos.to_nat k) p r0 s0) as (q & r & s & -> & Hq);
      [fold d; lia |].
    exists q, r, s. fold d in Hq. split; [f_equal; lia | lia].
  - exists p, r0, s0. split; [f_equal; lia | lia].
Qed.

(** Rounding a positive mantissa gives a finite double, as long as the
    exponent stays within the format. *)
Lemma binary_round_aux_finite (s : bool) (p : positive) (e : Z)
    (l : location) :
  -1074 <= e -> e + Z.max 0 (Z.pos (digits2_pos p) - 53) <= 970 ->
  exists m e',
    binary_round_aux Double.prec Double.emax s (Z.pos p) e l
    = S754_finite s m e'.
Proof.
  intros He Hmax. unfold binary_round_aux.
  destruct (shr_fexp_pos p e l He) as (q & r1 & s1 & -> & Hq).
  cbn [shr_m].
  destruct (round_nearest_even_pos q
              (loc_of_shr_record (Build_shr_record (Z.pos q) r1 s1)))
    as (q2 & -> & Hq2).
  destruct (shr_fexp_pos q2 (e + Z.max 0 (Z.pos (digits2_pos p) - 53))
              loc_Exact) as (q3 & r3 & s3 & -> & Hq3); [lia |].
  cbn [shr_m]. unfold Double.prec, Double.emax.
  destruct (Z.leb_spec
              (e + Z.max 0 (Z.pos (digits2_pos p) - 53)
               + Z.max 0 (Z.pos (digits2_pos q2) - 53)) (1024 - 53));
    [do 2 eexists; reflexivity | lia].
Qed.

Lemma digits2_le (p : positive) :
  forall n, 0 <= n -> Z.pos p < 2 ^ n -> Z.pos (digits2_pos p) <= n.
Proof.
  induction p as [q IH | q IH |]; intros n Hn Hp.
  - assert (n <> 0) by (intros ->; cbn in Hp; lia).
    replace n with (Z.succ (n - 1)) in Hp by lia.
    rewrite Z.pow_succ_r in Hp by lia.
    specialize (IH (n - 1)). cbn [digits2_pos]. lia.
  - assert (n <> 0) by (intros ->; cbn in Hp; lia).
    replace n with (Z.succ (n - 1)) in Hp by lia.
    rewrite Z.pow_succ_r in Hp by lia.
    specialize (IH (n - 1)). cbn [digits2_pos]. lia.
  - assert (n <> 0) by (intros ->; cbn in Hp; lia).
    cbn [digits2_pos]. lia.
Qed.

Lemma binary_round_finite (s : bool) (p : positive) :
  Z.pos (digits2_pos p) <= 1023 ->
  exists m e, binary_round Double.prec Double.emax s p 0 = S754_finite s m e.
Proof.
  intros Hd. unfold binary_round, shl_align, fexp, emin.
  change Double.prec with 53. change Double.emax with 1024.
  destruct (Z.max (Z.pos (digits2_pos p) + 0 - 53) (3 - 1024 - 53) - 0)
    as [| k | k] eqn:En.
  - apply (binary_round_aux_finite s p 0 loc_Exact); lia.
  - apply (binary_round_aux_finite s p 0 loc_Exact); lia.
  - apply (binary_round_aux_finite s _ _ loc_Exact); [lia |].
    pose proof (digits2_xO_iter p k) as Hk.
    change (PosDef.Pos.iter xO p k) with (Pos.iter xO p k). lia.
Qed.

(** The double of an integer is +0.0 for 0 and, for every other integer
    below 2^64 in magnitude, a finite double of the same sign. *)
Lemma of_Z_finite (z : Z) :
  z <> 0 -> Z.abs z < 2 ^ 64 ->
  exists m e, Double.of_Z z = S754_finite (z <? 0) m e.
Proof.
  intros Hz Hb. unfold Double.of_Z.
  destruct z as [| p | p]; [contradiction | |]; cbn [binary_normalize Z.ltb Z.compare];
    apply binary_round_finite;
    pose proof (digits2_le p 64 ltac:(lia) ltac:(cbn [Z.abs] in Hb; exact Hb));
    lia.
Qed.

Lemma of_Z_real (z : Z) : Z.abs z < 2 ^ 64 -> is_real (Double.of_Z z) = true.
Proof.
  intros Hb. destruct (Z.eq_dec z 0) as [-> | Hz]; [reflexivity |].
  destruct (of_Z_finite z Hz Hb) as (m & e & ->). reflexivity.
Qed.

Lemma of_Z_zero (z : Z) :
  Z.abs z < 2 ^ 64 -> is_zero (Double.of_Z z) = (z =? 0).
Proof.
  intros Hb. destruct (Z.eqb_spec z 0) as [-> | Hz]; [reflexivity |].
  destruct (of_Z_finite z Hz Hb) as (m & e & ->). reflexivity.
Qed.

(** *** The three percentages *)

Lemma Long_wrap_range (z : Z) : Long.in_range (Long.wrap z).
Proof.
  unfold Long.in_range, Long.wrap, Long.MIN, Long.MAX.
  pose proof (Z.mod_pos_bound (z + 2 ^ 63) (2 ^ 64) ltac:(lia)). lia.
Qed.

Lemma in_range_abs (z : Z) : Long.in_range z -> Z.abs z < 2 ^ 64.
Proof. unfold Long.in_range, Long.MIN, Long.MAX. lia. Qed.

(** X16. The CPU usage that the tracker returns is never NaN, whatever the
    readings (negative or wrapped counters included) and whatever the state
    of the tracker: the division is made only under a positive total
    delta. *)
Theorem cpu_usage_never_nan (current : CPUStats.t) (m : SystemMonitor) :
  Double.is_nan (fst (cpu_usage_from current m)) = false.
Proof.
  destruct m as [prev [|] f l].
  - rewrite cpu_usage_cold. reflexivity.
  - rewrite cpu_usage_warm. cbn [fst].
    set (td := Long.sub (CPUStats.total current) (CPUStats.total prev)).
    set (ad := Long.sub (CPUStats.active current) (CPUStats.active prev)).
    assert (Htd : Z.abs td < 2 ^ 64) by apply in_range_abs, Long_wrap_range.
    assert (Had : Z.abs ad < 2 ^ 64) by apply in_range_abs, Long_wrap_range.
    destruct (Z.ltb_spec 0 td) as [Hpos | _]; [| reflexivity].
    apply mul_hundred_no_nan, div_no_nan.
    + apply of_Z_real, Had.
    + apply of_Z_real, Htd.
    + rewrite (of_Z_zero td Htd).
      destruct (Z.eqb_spec td 0); [lia | apply andb_false_r].
Qed.

(** X17. The disk usage that [get_disk_usage] returns is never NaN, and
    no exception leaves it: 0.0 when the query fails or the capacity is 0,
    the quotient otherwise (capacity and free space being values of a
    64-bit unsigned integer). *)
Theorem disk_usage_never_nan (src : sources) (path : string) (w : world) :
  (forall info, disk src path = inr info ->
     0 <= Space.capacity info < 2 ^ 64 /\ 0 <= Space.free info < 2 ^ 64) ->
  exists d w',
    get_disk_usage src path w = (Return d, w') /\
    Double.is_nan d = false /\
    (forall info, disk src path = inr info -> Space.capacity info = 0 ->
       d = Double.zero).
Proof.
  intros Hbound. rewrite get_disk_usage_eq. do 2 eexists.
  split; [reflexivity |]. unfold disk_percent.
  destruct (disk src path) as [msg | info]; [split; [reflexivity | discriminate] |].
  destruct (Hbound info eq_refl) as [Hc Hf].
  assert (Hca : Z.abs (Space.capacity info) < 2 ^ 64) by lia.
  assert (Hfa : Z.abs (Space.free info) < 2 ^ 64) by lia.
  split.
  - destruct (Double.ltb Double.zero (Double.of_Z (Space.capacity info)))
      eqn:Hlt; [| reflexivity].
    apply mul_hundred_no_nan, one_sub_no_nan, div_no_nan.
    + apply of_Z_real, Hfa.
    + apply of_Z_real, Hca.
    + rewrite (of_Z_zero _ Hca).
      destruct (Z.eqb_spec (Space.capacity info) 0) as [E | _];
        [| apply andb_false_r].
      rewrite E in Hlt. discriminate Hlt.
  - intros info' [= <-] E. rewrite E. reflexivity.
Qed.

Lemma disk_usage_never_nan_witness :
  (forall info, disk (example_sources 0) "/" = inr info ->
     0 <= Space.capacity info < 2 ^ 64 /\ 0 <= Space.free info < 2 ^ 64) /\
  exists d w',
    get_disk_usage (example_sources 0) "/" empty_world = (Return d, w') /\
    Double.is_nan d = false.
Proof.
  assert (H : forall info, disk (example_sources 0) "/" = inr info ->
     0 <= Space.capacity info < 2 ^ 64 /\ 0 <= Space.free info < 2 ^ 64).
  { intros info [= <-]. cbn [Space.capacity Space.free]. lia. }
  split; [exact H |].
  destruct (disk_usage_never_nan (example_sources 0) "/" empty_world H)
    as (d & w' & Hd & Hn & _).
  exists d, w'. split; [exact Hd | exact Hn].
Defined.

(** X18. The memory percentage is NaN exactly when the total and the
    available memory are both 0, for fields that are values of a [long];
    in every other case, a total of 0 included, it is a number or an
    infinity. *)
Theorem used_percent_nan_iff (s : MemoryStats.t) :
  memory_fits s ->
  Double.is_nan (MemoryStats.used_percent s) = true <->
  MemoryStats.total s = 0 /\ MemoryStats.available s = 0.
Proof.
  intros (Ht & _ & Ha & _). apply in_range_abs in Ht, Ha.
  unfold MemoryStats.used_percent. split.
  - intros Hnan.
    destruct (Z.eq_dec (MemoryStats.total s) 0) as [Et | Nt];
      destruct (Z.eq_dec (MemoryStats.available s) 0) as [Ea | Na];
      [split; assumption | exfalso | exfalso | exfalso];
      (rewrite mul_hundred_no_nan in Hnan; [discriminate |];
       apply one_sub_no_nan, div_no_nan;
       [apply of_Z_real, Ha | apply of_Z_real, Ht |];
       rewrite (of_Z_zero _ Ha), (of_Z_zero _ Ht);
       destruct (Z.eqb_spec (MemoryStats.available s) 0);
       destruct (Z.eqb_spec (MemoryStats.total s) 0);
       try reflexivity; contradiction).
  - intros [-> ->]. reflexivity.
Qed.

Lemma used_percent_nan_iff_witness :
  memory_fits (MemoryStats.mk 0 0 5 0 0) /\
  Double.is_nan (MemoryStats.used_percent (MemoryStats.mk 0 0 5 0 0)) = false.
Proof.
  assert (H : memory_fits (MemoryStats.mk 0 0 5 0 0))
    by (unfold memory_fits, Long.in_range, Long.MIN, Long.MAX; cbn; lia).
  split; [exact H |].
  destruct (Double.is_nan (MemoryStats.used_percent (MemoryStats.mk 0 0 5 0 0)))
    eqn:E; [| reflexivity].
  destruct (proj1 (used_percent_nan_iff _ H) E) as [_ Ha]. discriminate Ha.
Defined.

(** ** More edges *)

(** X19. When the log file cannot be opened for writing, nothing tells
    it: a counted session leaves every file as it was and prints exactly
    the console lines of the same session without a log. *)
Theorem unwritable_log_is_silent (n : Z) (fuel : nat) (junk : CPUStats.t)
    (env : environment) (interval : Z) (path : string) (w : world) :
  0 <= n <= Int.MAX -> (Z.to_nat n <= fuel)%nat ->
  writable env path = false ->
  let w' := snd (session fuel junk env (mkOptions interval n path) w) in
  files w' = files w /\
  stderr w'
  = stderr (snd (session fuel junk env (mkOptions interval n EmptyString) w)) /\
  stdout w'
  = stdout (snd (session fuel junk env (mkOptions interval n EmptyString) w)).
Proof.
  intros Hn Hfuel Hw.
  destruct (session_trace n fuel junk env interval EmptyString w Hn Hfuel)
    as (m0 & w0 & -> & Hout0 & Herr0 & _).
  destruct (session_trace n fuel junk env interval path w Hn Hfuel)
    as (m1 & w1 & E & Hout1 & Herr1 & _).
  rewrite E. cbn [snd]. split; [| split; congruence].
  clear - E Hn Hfuel Hw. unfold session in E.
  cbn [opt_log_file opt_interval opt_count] in E.
  pose proof (SystemMonitor_new_fresh junk env path w) as Hm.
  assert (Hf0 : files (snd (SystemMonitor_new junk env path w)) = files w).
  { unfold SystemMonitor_new, write_trunc. rewrite Hw.
    destruct (negb _); reflexivity. }
  destruct (SystemMonitor_new junk env path w) as [m w0]. cbn [fst snd] in *.
  unfold monitor in E.
  destruct (monitor_loop_trace env interval n (Z.to_nat n) fuel 0 m w0)
    as (m' & w' & E' & _ & _ & _ & _ & _ & _ & _ & _ & Hoff & _); try lia.
  rewrite E' in E. inversion E; subst. rewrite Hoff; [exact Hf0 |].
  cbn [log_file]. rewrite Hw. apply andb_false_r.
Qed.

Lemma unwritable_log_is_silent_witness :
  0 <= 2 <= Int.MAX /\ (Z.to_nat 2 <= 2)%nat /\
  writable (mkEnvironment example_sources (fun _ => false)) "/nowhere/log.csv"
  = false /\
  files (snd (session 2 CPUStats.zeroed
                (mkEnvironment example_sources (fun _ => false))
                (mkOptions 1 2 "/nowhere/log.csv") empty_world))
  = files empty_world.
Proof.
  assert (H1 : 0 <= 2 <= Int.MAX) by (unfold Int.MAX; lia).
  assert (H2 : (Z.to_nat 2 <= 2)%nat) by (cbn; lia).
  split; [exact H1 |]. split; [exact H2 |]. split; [reflexivity |].
  exact (proj1 (unwritable_log_is_silent 2 2 CPUStats.zeroed
                  (mkEnvironment example_sources (fun _ => false)) 1
                  "/nowhere/log.csv" empty_world H1 H2 eq_refl)).
Defined.

(** X20. With a total of 0 and a positive available memory (a [long]),
    the memory percentage is minus infinity: the quotient by zero is plus
    infinity, its difference from 1 is minus infinity, and so is the
    product by 100. *)
Theorem used_percent_zero_total_positive_available
    (free available buffers cached : Z) :
  0 < available <= Long.MAX ->
  MemoryStats.used_percent
    (MemoryStats.mk 0 free available buffers cached)
  = S754_infinity true.
Proof.
  intros Ha. unfold MemoryStats.used_percent.
  cbn [MemoryStats.available MemoryStats.total].
  destruct (of_Z_finite available) as (m & e & ->);
    [lia | unfold Long.MAX in Ha; lia |].
  destruct (Z.ltb_spec available 0); [lia |]. reflexivity.
Qed.

Lemma used_percent_zero_total_positive_available_witness :
  0 < 4000000 <= Long.MAX /\
  MemoryStats.used_percent (MemoryStats.mk 0 0 4000000 0 0)
  = S754_infinity true.
Proof.
  assert (H : 0 < 4000000 <= Long.MAX) by (unfold Long.MAX; lia).
  split; [exact H |].
  exact (used_percent_zero_total_positive_available 0 4000000 0 0 H).
Defined.

(** ** Lines of [/proc/stat] that are cut short *)

Lemma skipws_all_space (s : string) :
  all_space s = true -> IStream.skipws s = EmptyString.
Proof.
  induction s as [| c s IH]; [reflexivity |]. cbn [all_space IStream.skipws].
  intros H. apply andb_prop in H. destruct H as [Hc Hs]. rewrite Hc.
  apply IH, Hs.
Qed.

Lemma read_string_blank (l old : string) :
  all_space l = true ->
  IStream.read_string (IStream.of_string l) old = (IStream.failed, old).
Proof.
  intros H. unfold IStream.read_string, IStream.extract_string,
    IStream.of_string. cbn [IStream.failbit IStream.buf].
  rewrite (skipws_all_space l H). reflexivity.
Qed.

Lemma reading_of_zeros :
  (let l := repeat 0 8 in
   CPUStats.mk (nth 0 l 0) (nth 1 l 0) (nth 2 l 0) (nth 3 l 0) (nth 4 l 0)
     (nth 5 l 0) (nth 6 l 0) (nth 7 l 0)) = CPUStats.zeroed.
Proof. reflexivity. Qed.

(** X21. A [/proc/stat] that is empty, or whose first line is empty or
    holds nothing but spaces and tabs, gives the all-zero reading: no
    error is raised for the missing label. *)
Theorem get_cpu_stats_blank_line (l rest : string) :
  all_blank l = true ->
  get_cpu_stats (Some l) = CPUStats.zeroed /\
  get_cpu_stats (Some (l ++ String newline rest)%string) = CPUStats.zeroed.
Proof.
  intros Hl.
  pose proof (read_string_blank l EmptyString (all_blank_all_space l Hl))
    as Hread.
  pose proof (all_blank_no_newline l Hl) as Hnl.
  split.
  - destruct l as [| c l']; [reflexivity |].
    rewrite (get_cpu_stats_line _ _ _ _ _
               (getline_only_line (String c l') Hnl ltac:(discriminate))
               Hread).
    rewrite read_longs_failed. apply reading_of_zeros.
  - rewrite (get_cpu_stats_line _ _ _ _ _ (getline_first_line l rest Hnl)
               Hread).
    rewrite read_longs_failed. apply reading_of_zeros.
Qed.

Lemma get_cpu_stats_blank_line_witness :
  all_blank "  " = true /\
  get_cpu_stats (Some ("  " ++ String newline "cpu 1 2 3")%string)
  = CPUStats.zeroed.
Proof.
  split; [reflexivity |].
  exact (proj2 (get_cpu_stats_blank_line "  " "cpu 1 2 3" eq_refl)).
Defined.














